(** * pinnwand: the website handlers ([src/pinnwand/handler/website.py])

    A shallow embedding of the request handlers of the pastebin and the
    properties of its paste lifecycle: creation (legacy single-file
    [Create.post] and multi-file [CreateAction.post]), the reads with
    their lazy expiry ([Show], [RedirectShow], [FileRaw], [FileHex],
    [PasteDownload], [FileDownload], [Repaste]) and [Remove].

    Conventions of the embedding:
    - a Python [str] is a [string]; each character stands for one code
      point (the code points below 256);
    - instants ([datetime]) and durations are integers ([Z]);
    - the relational store is the list of its [Paste] rows in insertion
      order, each row carrying its [File] rows (the [files]
      relationship); a handler is a function from the store to a
      response and the store it leaves behind;
    - a raised exception is a response ([Raise]); every handler leaves
      the store as it was at the last commit;
    - a handler takes the body arguments it reads with
      [get_body_argument] as they are once the framework has found and
      decoded them; the rate limiter runs before the body of a handler
      and is not part of it; [Create.post] is also given from the body
      arguments of the request on, with the accessor of the framework
      and with constructors and a store that can refuse
      ([Create_post_request], [Create_post_checked]);
    - what a handler draws from outside (the instant [now], the
      identifiers of [utility.slug_create] and [utility.SlugContext],
      the removal token of a new paste) is an argument of the handler. *)

From stdpp Require Import base strings list gmap pretty.
From Stdlib Require Import Ascii String ZArith Lia.

Local Open Scope string_scope.
Local Open Scope list_scope.

(** ** Python strings *)

Module Py.

(** [str.isspace] on one code point (below 256). *)
Definition isspace (c : ascii) : bool :=
  let n := nat_of_ascii c in
  ((9 <=? n)%nat && (n <=? 13)%nat) || ((28 <=? n)%nat && (n <=? 32)%nat)
  || (n =? 133)%nat || (n =? 160)%nat.

(** Truthiness of a [str]: the empty string is false. *)
Definition truthy (s : string) : bool :=
  match s with
  | EmptyString => false
  | String _ _ => true
  end.

Fixpoint lstrip (s : string) : string :=
  match s with
  | EmptyString => EmptyString
  | String c s' => if isspace c then lstrip s' else s
  end.

Fixpoint rstrip (s : string) : string :=
  match s with
  | EmptyString => EmptyString
  | String c s' =>
      let r := rstrip s' in
      if isspace c && negb (truthy r) then EmptyString else String c r
  end.

(** [str.strip()]. *)
Definition strip (s : string) : string := rstrip (lstrip s).

(** Truthiness of a list: the empty list is false. *)
Definition nonempty {A} (l : list A) : bool :=
  match l with
  | [] => false
  | _ :: _ => true
  end.

(** [zip(a, b, c)]: stops at the shortest argument. *)
Fixpoint zip3 {A B C} (a : list A) (b : list B) (c : list C) : list (A * B * C) :=
  match a, b, c with
  | x :: a', y :: b', z :: c' => (x, y, z) :: zip3 a' b' c'
  | _, _, _ => []
  end.

(** [len] of a [str], as an integer. *)
Definition len (s : string) : Z := Z.of_nat (String.length s).

(** [sum] of a list of integers. *)
Definition sum (l : list Z) : Z := foldr Z.add 0%Z l.

(** [str.encode("utf8")] on code points below 256: one byte below 128,
    two bytes from 128 on. *)
Definition utf8 (c : ascii) : list N :=
  let n := N_of_ascii c in
  if (n <? 128)%N then [n]
  else [N.lor 192 (N.shiftr n 6); N.lor 128 (N.land n 63)].

Definition encode (s : string) : list N :=
  mbind utf8 (list_ascii_of_string s).

Definition hexdigit (n : N) : ascii :=
  if (n <? 10)%N then ascii_of_N (48 + n) else ascii_of_N (87 + n).

(** [binascii.hexlify]: two lower-case hexadecimal digits per byte. *)
Fixpoint hexlify (bs : list N) : string :=
  match bs with
  | [] => EmptyString
  | b :: bs' =>
      String (hexdigit (N.shiftr b 4)) (String (hexdigit (N.land b 15)) (hexlify bs'))
  end.

(** [str.split(sep)] for a separator of one character: the pieces
    between the separators, empty pieces included; the empty string
    gives one empty piece. *)
Fixpoint split (sep : ascii) (s : string) : list string :=
  match s with
  | EmptyString => [EmptyString]
  | String c s' =>
      if bool_decide (c = sep) then EmptyString :: split sep s'
      else
        match split sep s' with
        | w :: ws => String c w :: ws
        | [] => [String c EmptyString]
        end
  end.

End Py.

(** ** The data model ([pinnwand.database.models]) *)

Record File := mkFile {
  file_slug : string;
  raw : string;
  lexer : string;
  filename : option string;
  fmt : string;
}.

Record Paste := mkPaste {
  slug : string;
  exp_date : Z;
  removal : string;
  src : string;
  files : list File;
}.

Global Instance File_eq_dec : EqDecision File.
Proof. solve_decision. Defined.

Global Instance Paste_eq_dec : EqDecision Paste.
Proof. solve_decision. Defined.

(** The store: the rows of the paste table, oldest first. *)
Abbreviation Store := (list Paste).

(** ** Configuration ([pinnwand.configuration]) *)

Record Configuration := mkConfiguration {
  expiries : gmap string Z;
  paste_size : Z;
  default_selected_lexer : string;
}.

(** ** Responses *)

Inductive Exception :=
| HTTPError (status_code : Z)
| ValidationError (message : string)
| RatelimitError (message : string)
| SpamError (message : string)
| IntegrityError
| IndexError.

Record Cookie := mkCookie {
  cookie_name : string;
  cookie_value : string;
  cookie_path : string;
}.

Inductive Body :=
| Text (s : string)
| Zip (entries : list (string * string)).

Inductive Response :=
| Raise (e : Exception)
| Redirect (url : string) (cookies : list Cookie)
| Render (template pagetitle : string) (paste : Paste) (can_delete : option bool)
| Write (headers : list (string * string)) (body : Body).

Global Instance Exception_eq_dec : EqDecision Exception.
Proof. solve_decision. Defined.

Global Instance Cookie_eq_dec : EqDecision Cookie.
Proof. solve_decision. Defined.

Global Instance Body_eq_dec : EqDecision Body.
Proof. solve_decision. Defined.

Global Instance Response_eq_dec : EqDecision Response.
Proof. solve_decision. Defined.

(** [Base.write_error]: the error page, and the status the handler
    sets on the response when it sets one. *)
Record ErrorPage := mkErrorPage {
  set_status : option Z;
  page_text : string;
  page_status_code : Z;
}.

Definition write_error (status_code : Z) (exc : Exception) : ErrorPage :=
  if bool_decide (status_code = 404%Z) then
    {| set_status := None; page_text := "That page does not exist";
       page_status_code := 404 |}
  else
    match exc with
    | ValidationError message =>
        {| set_status := Some 400%Z; page_text := message; page_status_code := 400 |}
    | RatelimitError message =>
        {| set_status := Some 429%Z; page_text := message; page_status_code := 429 |}
    | SpamError message =>
        {| set_status := Some 451%Z; page_text := message; page_status_code := 429 |}
    | _ =>
        {| set_status := None; page_text := "unknown error"; page_status_code := 500 |}
    end.

(** The status a raised exception is answered with. The framework
    sends an [HTTPError] with the status it carries and any other
    exception with 500, and calls [write_error], which may set another
    status. *)
Definition status_of (e : Exception) : Z :=
  let sent := match e with HTTPError c => c | _ => 500%Z end in
  default sent (set_status (write_error sent e)).

Definition NotFound : Response := Raise (HTTPError 404).


(** A server error: a raised exception answered with a 5xx status. *)
Definition server_error (r : Response) : Prop :=
  match r with
  | Raise e => (500 <= status_of e < 600)%Z
  | _ => False
  end.

(** ** The store ([pinnwand.database]) *)

(** [session.query(models.Paste).filter(models.Paste.slug == s).first()] *)
Definition query_paste_slug (db : Store) (s : string) : option Paste :=
  List.find (λ p, bool_decide (slug p = s)) db.

(** [session.query(models.Paste).filter(models.Paste.removal == r).first()] *)
Definition query_paste_removal (db : Store) (r : string) : option Paste :=
  List.find (λ p, bool_decide (removal p = r)) db.

(** The rows of the file table, each with the paste it belongs to
    ([file.paste]). *)
Definition file_rows (db : Store) : list (File * Paste) :=
  p ← db; (λ f, (f, p)) <$> files p.

(** [session.query(models.File).filter(models.File.slug == s).first()] *)
Definition query_file_slug (db : Store) (s : string) : option (File * Paste) :=
  List.find (λ r, bool_decide (file_slug r.1 = s)) (file_rows db).

Definition paste_slugs (db : Store) : list string := slug <$> db.

Definition file_slugs (db : Store) : list string :=
  (λ r, file_slug r.1) <$> file_rows db.

(** Modelled from the spec: the session of [pinnwand.database.manager]
    and the tables of [pinnwand.database.models] are not part of the
    handlers' file. [slug] is the key of a paste and a paste owns its
    files, so [session.delete(paste); session.commit()] removes the row
    of that key together with its files. *)
Definition session_delete (db : Store) (p : Paste) : Store :=
  filter (λ q, slug q ≠ slug p) db.

(** Modelled from the spec: the uniqueness constraints the store
    checks when a new paste and its files are committed: the paste's
    slug is new among the pastes, the files' slugs are new among the
    files and differ from each other. *)
Definition unique_slugs (db : Store) (p : Paste) : bool :=
  bool_decide (slug p ∉ paste_slugs db)
  && forallb (λ f, bool_decide (file_slug f ∉ file_slugs db)) (files p)
  && bool_decide (NoDup (file_slug <$> files p)).

(** Modelled from the spec: [session.add(paste); session.commit()]
    appends the paste with its files, or fails on a violated constraint
    ([None], an [IntegrityError] in the handler) and stores nothing. *)
Definition session_add (db : Store) (p : Paste) : option Store :=
  if unique_slugs db p then Some (db ++ [p]) else None.

(** The constraints as an invariant of the store. *)
Definition store_wf (db : Store) : Prop :=
  NoDup (paste_slugs db) ∧ NoDup (file_slugs db).

(** A paste with at least one file, the first of them under the slug of
    the paste. *)
Definition paste_headed (p : Paste) : Prop :=
  match files p with
  | f :: _ => file_slug f = slug p
  | [] => False
  end.

(** [paste.exp_date < datetime.now(timezone.utc)] *)
Definition expired (p : Paste) (now : Z) : bool := bool_decide (exp_date p < now)%Z.

(** ** The arguments of a request ([tornado.web.RequestHandler])

    The accessors the handlers read their arguments with. The body
    arguments of a request map a name to the values sent under it, in
    order, each already decoded to a [str]. *)

Module Tornado.

(** The characters of [_remove_control_chars_regex],
    [[\x00-\x08\x0e-\x1f]]. *)
Definition is_control (c : ascii) : bool :=
  let n := nat_of_ascii c in
  (n <=? 8)%nat || ((14 <=? n)%nat && (n <=? 31)%nat).

(** [_remove_control_chars_regex.sub(" ", s)] *)
Fixpoint remove_control_chars (s : string) : string :=
  match s with
  | EmptyString => EmptyString
  | String c s' => String (if is_control c then " "%char else c) (remove_control_chars s')
  end.

(** [get_body_arguments(name, strip)]: every value sent under [name],
    its control characters replaced by spaces, stripped when [strip]
    is set. *)
Definition get_body_arguments (name : string) (strip : bool)
    (body_arguments : gmap string (list string)) : list string :=
  (λ v, let s := remove_control_chars v in if strip then Py.strip s else s)
    <$> default [] (body_arguments !! name).

(** [get_body_argument(name, strip=strip)]: the last value sent under
    [name]; without one, [MissingArgumentError], an [HTTPError] of
    status 400. *)
Definition get_body_argument (name : string) (strip : bool)
    (body_arguments : gmap string (list string)) : Exception + string :=
  match last (get_body_arguments name strip body_arguments) with
  | Some v => inr v
  | None => inl (HTTPError 400)
  end.

End Tornado.

(** ** The handlers *)

Module Website.

Section Handlers.

(** [ConfigurationProvider.get_config()] *)
Variable configuration : Configuration.

(** [utility.list_languages()]: the names of the known lexers. *)
Variable list_languages : list string.

(** The formatted content [models.File] computes from the arguments of
    its constructor (slug, raw, lexer, filename). *)
Variable highlight : string → string → string → option string → string.

(** [utility.filename_clean] *)
Variable filename_clean : string → string.

(** Modelled from the spec: [models.Paste(slug, expiry, src)] at the
    instant [now], [removal] being the token the constructor
    generates; [exp_date] is computed once, from the expiry. *)
Definition Paste_init (now : Z) (removal : string) (slug : string) (expiry : Z) (src : string) : Paste :=
  {| slug := slug; exp_date := now + expiry; removal := removal; src := src; files := [] |}.

(** Modelled from the spec: [models.File(slug, raw, lexer, filename)]. *)
Definition File_init (slug raw lexer : string) (filename : option string) : File :=
  {| file_slug := slug; raw := raw; lexer := lexer; filename := filename;
     fmt := highlight slug raw lexer filename |}.

Definition append (p : Paste) (fs : list File) : Paste :=
  {| slug := slug p; exp_date := exp_date p; removal := removal p; src := src p;
     files := files p ++ fs |}.

Definition removal_cookie (p : Paste) : Cookie :=
  {| cookie_name := "removal"; cookie_value := removal p; cookie_path := "/" +:+ slug p |}.

(** *** [Create.post]: the legacy single-file creation.
    [lexer], [raw] and [expiry] are the body arguments, [slug_create]
    is what [utility.slug_create()] returns. *)
Definition Create_build (now : Z) (removal slug_create : string)
    (lexer raw : string) (expiry : Z) : Paste :=
  let paste := Paste_init now removal slug_create expiry "deprecated-web" in
  let file := File_init (slug paste) raw lexer None in
  append paste [file].

Definition Create_post (now : Z) (removal slug_create : string)
    (lexer raw expiry : string) (db : Store) : Response * Store :=
  if negb (bool_decide (lexer ∈ list_languages)) then
    (Raise (HTTPError 400), db)
  else if negb (Py.truthy raw) || negb (Py.truthy (Py.strip raw)) then
    (Redirect ("/+" +:+ lexer) [], db)
  else
    match expiries configuration !! expiry with
    | None => (Raise (HTTPError 400), db)
    | Some seconds =>
        let paste := Create_build now removal slug_create lexer raw seconds in
        match session_add db paste with
        | None => (Raise IntegrityError, db)
        | Some db' => (Redirect ("/" +:+ slug paste) [removal_cookie paste], db')
        end
    end.

(** *** [Create.get]: the form for a new paste, [lexers] being the
    part of the path that names the lexers to preselect, joined by
    [+]. The page is the arguments [create.html] is rendered with
    ([message] and [paste] are [None]). *)
Record CreateForm := mkCreateForm {
  form_expiries : gmap string Z;
  form_lexers : list string;
  form_lexers_available : list string;
  form_pagetitle : string;
}.

Definition Create_get (lexers : string) : Exception + CreateForm :=
  let lexers_available := list_languages in
  let lexers_selected :=
    List.filter (λ lexer, Py.truthy (Py.strip lexer)) (Py.split "+" lexers) in
  let lexers_selected :=
    if negb (Py.nonempty lexers_selected)
    then [default_selected_lexer configuration]
    else lexers_selected in
  if negb (forallb (λ lexer, bool_decide (lexer ∈ lexers_available)) lexers_selected) then
    inl (HTTPError 404)
  else
    inr {| form_expiries := expiries configuration;
           form_lexers := lexers_selected;
           form_lexers_available := lexers_available;
           form_pagetitle := "Create new paste" |}.

(** *** [CreateAction.post]: the multi-file creation. *)

Record CreateActionArgs := mkCreateActionArgs {
  arg_expiry : string;            (* get_body_argument("expiry") *)
  arg_long : option string;       (* get_body_argument("long", None) *)
  arg_lexers : list string;       (* get_body_arguments("lexer") *)
  arg_raws : list string;         (* get_body_arguments("raw", strip=False) *)
  arg_filenames : list string;    (* get_body_arguments("filename") *)
}.

(** The loop over [zip(lexers, raws, filenames)]; [k] counts the calls
    of [next(slug_context)] made so far, [slug_context k] is what the
    next call returns. *)
Fixpoint CreateAction_files (slug_context : nat → string) (k : nat)
    (rows : list (string * string * string)) : list File :=
  match rows with
  | [] => []
  | (lexer, raw, filename) :: rows' =>
      File_init (slug_context k) raw lexer
                (if Py.truthy filename then Some filename else None)
      :: CreateAction_files slug_context (S k) rows'
  end.

Definition total_size (fs : list File) : Z := Py.sum ((λ f, Py.len (fmt f)) <$> fs).

Definition size_message (total : Z) : string :=
  "Sum of file sizes exceeds size limit when syntax highlighting applied ("
  +:+ pretty (total `div` 1024)%Z +:+ "kB > "
  +:+ pretty (paste_size configuration `div` 1024)%Z +:+ "kB)".

Definition set_file_slug (f : File) (s : string) : File :=
  {| file_slug := s; raw := raw f; lexer := lexer f; filename := filename f; fmt := fmt f |}.

Definition set_files (p : Paste) (fs : list File) : Paste :=
  {| slug := slug p; exp_date := exp_date p; removal := removal p; src := src p;
     files := fs |}.

(** The paste as it is when it is handed to the session: built, within
    the size limit, the first file renamed after the paste. *)
Definition CreateAction_build (now : Z) (removal : string) (slug_context : nat → string)
    (seconds : Z) (a : CreateActionArgs) : Exception + Paste :=
  let paste := Paste_init now removal (slug_context 0) seconds "web" in
  let paste :=
    append paste
      (CreateAction_files slug_context 1
         (Py.zip3 (arg_lexers a) (arg_raws a) (arg_filenames a))) in
  let total := total_size (files paste) in
  if bool_decide (total > paste_size configuration)%Z then
    inl (ValidationError (size_message total))
  else
    match files paste with
    | [] => inl IndexError
    | f :: fs => inr (set_files paste (set_file_slug f (slug paste) :: fs))
    end.

(** [slug_context auto_scale k] is what the [k]-th [next()] of
    [utility.SlugContext(auto_scale)] returns in this request. *)
Definition CreateAction_post (now : Z) (removal : string)
    (slug_context : bool → nat → string)
    (a : CreateActionArgs) (db : Store) : Response * Store :=
  match expiries configuration !! arg_expiry a with
  | None => (Raise (ValidationError "Invalid expiry provided"), db)
  | Some seconds =>
      let auto_scale := bool_decide (arg_long a = None) in
      if negb (Py.nonempty (arg_lexers a) && Py.nonempty (arg_raws a)
               && Py.nonempty (arg_filenames a)) then
        (Raise (ValidationError
                  "'lexers', 'raws', and 'filenames' arguments must not be empty"), db)
      else if negb (forallb (λ raw, Py.truthy (Py.strip raw)) (arg_raws a)) then
        (Raise (ValidationError "Empty pastes are not allowed"), db)
      else if existsb (λ n, negb (n =? List.length (arg_lexers a))%nat)
                [List.length (arg_lexers a); List.length (arg_raws a);
                 List.length (arg_filenames a)] then
        (Raise (ValidationError
                  "'lexers', 'raws', and 'filenames' arguments must be the same length"), db)
      else if existsb (λ lexer, negb (bool_decide (lexer ∈ list_languages))) (arg_lexers a) then
        (Raise (ValidationError "Invalid lexer provided"), db)
      else
        match CreateAction_build now removal (slug_context auto_scale) seconds a with
        | inl e => (Raise e, db)
        | inr paste =>
            match session_add db paste with
            | None => (Raise IntegrityError, db)
            | Some db' => (Redirect ("/" +:+ slug paste) [removal_cookie paste], db')
            end
        end
  end.

(** *** [Repaste.get] *)
Definition Repaste_get (slug : string) (db : Store) : Response * Store :=
  match query_paste_slug db slug with
  | None => (Raise (HTTPError 404), db)
  | Some paste => (Render "create.html" "repaste" paste None, db)
  end.

(** *** [Show.get]; [cookie] is [self.get_cookie("removal")]. *)
Definition Show_get (now : Z) (cookie : option string) (slug_ : string) (db : Store)
    : Response * Store :=
  match query_paste_slug db slug_ with
  | None => (Raise (HTTPError 404), db)
  | Some paste =>
      if expired paste now then
        (Raise (HTTPError 404), session_delete db paste)
      else
        let can_delete := bool_decide (cookie = Some (removal paste)) in
        (Render "show.html" ("View paste " +:+ slug paste) paste (Some can_delete), db)
  end.

(** *** [RedirectShow.get] *)
Definition RedirectShow_get (now : Z) (slug_ : string) (db : Store) : Response * Store :=
  match query_paste_slug db slug_ with
  | None => (Raise (HTTPError 404), db)
  | Some paste =>
      if expired paste now then
        (Raise (HTTPError 404), session_delete db paste)
      else
        (Redirect ("/" +:+ slug paste) [], db)
  end.

(** *** [FileRaw.get] *)
Definition FileRaw_get (now : Z) (file_id : string) (db : Store) : Response * Store :=
  match query_file_slug db file_id with
  | None => (Raise (HTTPError 404), db)
  | Some (file, paste) =>
      if expired paste now then
        (Raise (HTTPError 404), session_delete db paste)
      else
        (Write [("Content-Type", "text/plain; charset=utf-8")] (Text (raw file)), db)
  end.

(** *** [FileHex.get] *)
Definition FileHex_get (now : Z) (file_id : string) (db : Store) : Response * Store :=
  match query_file_slug db file_id with
  | None => (Raise (HTTPError 404), db)
  | Some (file, paste) =>
      if expired paste now then
        (Raise (HTTPError 404), session_delete db paste)
      else
        (Write [("Content-Type", "text/plain; charset=utf-8")]
               (Text (Py.hexlify (Py.encode (raw file)))), db)
  end.

(** *** [PasteDownload.get]; the archive is the list of the entries
    written to it, name and content, in order. *)
Definition PasteDownload_entry (file : File) : string * string :=
  let filename_ :=
    match filename file with
    | Some name =>
        if Py.truthy name then filename_clean name +:+ "-" +:+ file_slug file +:+ ".txt"
        else file_slug file +:+ ".txt"
    | None => file_slug file +:+ ".txt"
    end in
  (filename_, raw file).

Definition PasteDownload_get (now : Z) (paste_id : string) (db : Store) : Response * Store :=
  match query_paste_slug db paste_id with
  | None => (Raise (HTTPError 404), db)
  | Some paste =>
      if expired paste now then
        (Raise (HTTPError 404), session_delete db paste)
      else
        (Write [("Content-Type", "application/zip");
                ("Content-Disposition", "attachment; filename=" +:+ slug paste +:+ ".zip")]
               (Zip (PasteDownload_entry <$> files paste)), db)
  end.

(** *** [FileDownload.get] *)
Definition FileDownload_get (now : Z) (file_id : string) (db : Store) : Response * Store :=
  match query_file_slug db file_id with
  | None => (Raise (HTTPError 404), db)
  | Some (file, paste) =>
      if expired paste now then
        (Raise (HTTPError 404), session_delete db paste)
      else
        let filename_ :=
          match filename file with
          | Some name =>
              if Py.truthy name then
                filename_clean name +:+ "-" +:+ file_slug file +:+ ".txt"
              else file_slug file +:+ ".txt"
          | None => file_slug file +:+ ".txt"
          end in
        (Write [("Content-Type", "text/plain; charset=utf-8");
                ("Content-Disposition", "attachment; filename=" +:+ filename_)]
               (Text (raw file)), db)
  end.

(** *** [Remove.get] *)
Definition Remove_get (now : Z) (removal_ : string) (db : Store) : Response * Store :=
  match query_paste_removal db removal_ with
  | None => (Raise (HTTPError 404), db)
  | Some paste =>
      if expired paste now then
        (Raise (HTTPError 404), session_delete db paste)
      else
        (Redirect "/" [], session_delete db paste)
  end.

(** *** The creation the specification asks for, for comparison

    Following the specification's words: a commit that fails on a
    collision of identifiers makes the creation draw fresh identifiers
    and start over, at most [retries] times; the failure surfaces only
    when the retries are used up. One attempt draws one identifier
    for the paste and one for each file, so the next attempt goes on
    from there in [slug_context]. *)
Fixpoint CreateAction_post_retrying (retries : nat) (now : Z) (removal : string)
    (slug_context : bool → nat → string)
    (a : CreateActionArgs) (db : Store) : Response * Store :=
  match CreateAction_post now removal slug_context a db with
  | (Raise IntegrityError, _) =>
      match retries with
      | O => (Raise IntegrityError, db)
      | S retries' =>
          CreateAction_post_retrying retries' now removal
            (λ auto_scale k, slug_context auto_scale (k + S (List.length (arg_lexers a))))
            a db
      end
  | result => result
  end.

(** Following the specification's words: the name a download
    suggests for a file, [{sanitized filename}-{slug}.txt] if a
    filename was supplied, else [{slug}.txt]. *)
Definition suggested_filename (file : File) : string :=
  match filename file with
  | Some name =>
      if bool_decide (name = "") then file_slug file +:+ ".txt"
      else filename_clean name +:+ "-" +:+ file_slug file +:+ ".txt"
  | None => file_slug file +:+ ".txt"
  end.

(** The validations of [CreateAction.post] that come before the
    session is opened. *)
Definition CreateAction_valid (a : CreateActionArgs) : Prop :=
  is_Some (expiries configuration !! arg_expiry a)
  ∧ arg_lexers a ≠ []
  ∧ List.length (arg_raws a) = List.length (arg_lexers a)
  ∧ List.length (arg_filenames a) = List.length (arg_lexers a)
  ∧ Forall (λ raw, Py.strip raw ≠ "") (arg_raws a)
  ∧ Forall (λ lexer, lexer ∈ list_languages) (arg_lexers a).

(** The files of a request as [CreateAction.post] builds them, each
    with the identifier drawn for it. *)
Definition CreateAction_drawn (slug_context : nat → string) (a : CreateActionArgs)
    : list File :=
  CreateAction_files slug_context 1
    (Py.zip3 (arg_lexers a) (arg_raws a) (arg_filenames a)).

(** The slugs of the files of the paste that [CreateAction.post]
    commits for a request of [n] files: the slug of the paste, draw 0,
    for the first file, then the draws 2, 3, ... made for the others. *)
Definition CreateAction_slugs (slug_context : nat → string) (n : nat) : list string :=
  match n with
  | O => []
  | S m => slug_context 0 :: (slug_context <$> seq 2 m)
  end.

(** *** Requests and runs *)

Inductive Request :=
| CreateReq (now : Z) (removal slug_create lexer raw expiry : string)
| CreateActionReq (now : Z) (removal : string) (slug_context : bool → nat → string)
                  (a : CreateActionArgs)
| RepasteReq (slug : string)
| ShowReq (now : Z) (cookie : option string) (slug : string)
| RedirectShowReq (now : Z) (slug : string)
| FileRawReq (now : Z) (file_id : string)
| FileHexReq (now : Z) (file_id : string)
| PasteDownloadReq (now : Z) (paste_id : string)
| FileDownloadReq (now : Z) (file_id : string)
| RemoveReq (now : Z) (removal : string).

Definition handle (r : Request) (db : Store) : Response * Store :=
  match r with
  | CreateReq now removal slug_create lexer raw expiry =>
      Create_post now removal slug_create lexer raw expiry db
  | CreateActionReq now removal slug_context a =>
      CreateAction_post now removal slug_context a db
  | RepasteReq s => Repaste_get s db
  | ShowReq now cookie s => Show_get now cookie s db
  | RedirectShowReq now s => RedirectShow_get now s db
  | FileRawReq now s => FileRaw_get now s db
  | FileHexReq now s => FileHex_get now s db
  | PasteDownloadReq now s => PasteDownload_get now s db
  | FileDownloadReq now s => FileDownload_get now s db
  | RemoveReq now r => Remove_get now r db
  end.

(** The store after a sequence of requests. *)
Definition run (rs : list Request) (db : Store) : Store :=
  foldl (λ db r, (handle r db).2) db rs.

(** The requests that create a paste. *)
Definition creates (r : Request) : bool :=
  match r with
  | CreateReq _ _ _ _ _ _ | CreateActionReq _ _ _ _ => true
  | _ => false
  end.

(** The requests that look a paste up by its slug (those that check
    the expiry, and all of them), and those that look a file up by its
    slug, at the instant [now]. *)
Definition expiring_paste_reads (now : Z) (cookie : option string) (s : string)
    : list Request :=
  [ShowReq now cookie s; RedirectShowReq now s; PasteDownloadReq now s].

Definition paste_reads (now : Z) (cookie : option string) (s : string) : list Request :=
  RepasteReq s :: expiring_paste_reads now cookie s.

Definition file_reads (now : Z) (s : string) : list Request :=
  [FileRawReq now s; FileHexReq now s; FileDownloadReq now s].

(** The stores the handlers can reach from the empty one. *)
Inductive reachable : Store → Prop :=
| reachable_empty : reachable []
| reachable_step r db : reachable db → reachable (handle r db).2.

End Handlers.

(** *** [Create.post] with what surrounds it

    [Create.post] once more, from the body arguments of the request to
    the commit, with what the parts outside this file can do to it: the
    accessor that reads an argument, the constructors of the models,
    which can raise, and the constraints of the store besides those on
    the slugs. *)

Section Surroundings.

Variable configuration : Configuration.
Variable list_languages : list string.
Variable highlight : string → string → string → option string → string.

(** The exception [models.File(slug, raw, lexer, filename)] raises, if
    it raises one. *)
Variable File_check : string → string → string → option string → option Exception.

(** The exception [models.Paste(slug, expiry, src)] raises at the
    instant [now], if it raises one. *)
Variable Paste_check : Z → string → Z → string → option Exception.

(** The constraints of the store on a new paste besides those on the
    slugs. *)
Variable store_accepts : Store → Paste → bool.

(** The handler from its arguments on. *)
Definition Create_post_checked (now : Z) (removal slug_create : string)
    (lexer raw expiry : string) (db : Store) : Response * Store :=
  if negb (bool_decide (lexer ∈ list_languages)) then
    (Raise (HTTPError 400), db)
  else if negb (Py.truthy raw) || negb (Py.truthy (Py.strip raw)) then
    (Redirect ("/+" +:+ lexer) [], db)
  else
    match expiries configuration !! expiry with
    | None => (Raise (HTTPError 400), db)
    | Some seconds =>
        match Paste_check now slug_create seconds "deprecated-web" with
        | Some e => (Raise e, db)
        | None =>
            match File_check slug_create raw lexer None with
            | Some e => (Raise e, db)
            | None =>
                let paste := Create_build highlight now removal slug_create lexer raw seconds in
                if store_accepts db paste then
                  match session_add db paste with
                  | None => (Raise IntegrityError, db)
                  | Some db' => (Redirect ("/" +:+ slug paste) [removal_cookie paste], db')
                  end
                else (Raise IntegrityError, db)
            end
        end
    end.

(** The handler from the body arguments of the request on. *)
Definition Create_post_request (now : Z) (removal slug_create : string)
    (body_arguments : gmap string (list string)) (db : Store) : Response * Store :=
  match Tornado.get_body_argument "lexer" true body_arguments with
  | inl e => (Raise e, db)
  | inr lexer =>
      match Tornado.get_body_argument "code" false body_arguments with
      | inl e => (Raise e, db)
      | inr raw =>
          match Tornado.get_body_argument "expiry" true body_arguments with
          | inl e => (Raise e, db)
          | inr expiry => Create_post_checked now removal slug_create lexer raw expiry db
          end
      end
  end.

(** Modelled from the spec: [models.File] is not part of the handlers'
    file. Every creation rejects content whose formatted size exceeds
    the configured maximum with a [ValidationError]; for the single
    file of [Create.post], which has no check of its own, it is the
    constructor that does. *)
Definition File_size_check (slug raw lexer : string) (filename : option string)
    : option Exception :=
  if bool_decide (Py.len (highlight slug raw lexer filename) > paste_size configuration)%Z
  then Some (ValidationError "Highlighted text exceeds size limit")
  else None.

End Surroundings.

End Website.

Import Website.

(** ** A sample deployment

    A configuration, a lexer catalogue, a formatter and identifier
    generators on which the handlers can be run. *)

Module Sample.

Definition configuration : Configuration :=
  {| expiries := <["1day" := 86400%Z]> (<["1week" := 604800%Z]> ∅);
     paste_size := 64;
     default_selected_lexer := "text" |}.

Definition list_languages : list string := ["text"; "python"].

Definition highlight (slug raw lexer : string) (filename : option string) : string :=
  "<pre class=" +:+ lexer +:+ ">" +:+ raw +:+ "</pre>".

(** Keeps letters and digits, replaces anything else by an underscore. *)
Definition clean_char (c : ascii) : ascii :=
  let n := nat_of_ascii c in
  if ((48 <=? n)%nat && (n <=? 57)%nat) || ((65 <=? n)%nat && (n <=? 90)%nat)
     || ((97 <=? n)%nat && (n <=? 122)%nat)
  then c else "_"%char.

Fixpoint filename_clean (s : string) : string :=
  match s with
  | EmptyString => EmptyString
  | String c s' => String (clean_char c) (filename_clean s')
  end.

(** A generator that hands out [n0], [n1], [n2], ... *)
Definition slug_context (auto_scale : bool) (k : nat) : string := "n" +:+ pretty k.

(** A generator whose first identifier is already taken by [old_paste]
    below: [old], [n1], [n2], ... *)
Definition slug_context_stale (auto_scale : bool) (k : nat) : string :=
  match k with
  | 0 => "old"
  | _ => "n" +:+ pretty k
  end.

Definition two_files : CreateActionArgs :=
  {| arg_expiry := "1day"; arg_long := None;
     arg_lexers := ["text"; "text"]; arg_raws := ["a"; "b"];
     arg_filenames := ["x.txt"; "y.txt"] |}.

Definition one_file : CreateActionArgs :=
  {| arg_expiry := "1day"; arg_long := None;
     arg_lexers := ["text"]; arg_raws := ["hello"]; arg_filenames := [""] |}.

(** Fifty characters: within the limit of 64 as they are, beyond it once
    formatted. *)
Definition fifty : string := "0123456789012345678901234567890123456789012345678 ".

Definition wide_file : CreateActionArgs :=
  {| arg_expiry := "1day"; arg_long := None;
     arg_lexers := ["text"]; arg_raws := [fifty]; arg_filenames := ["wide.txt"] |}.

Definition old_first : File :=
  {| file_slug := "old"; raw := "x"; lexer := "text"; filename := None;
     fmt := "<pre class=text>x</pre>" |}.

Definition old_second : File :=
  {| file_slug := "old2"; raw := "y"; lexer := "text"; filename := Some "y.txt";
     fmt := "<pre class=text>y</pre>" |}.

(** A paste of two files that expires at instant 50. *)
Definition old_paste : Paste :=
  {| slug := "old"; exp_date := 50; removal := "secret"; src := "web";
     files := [old_first; old_second] |}.

Abbreviation Create_post := (Website.Create_post configuration list_languages highlight).
Abbreviation Create_build := (Website.Create_build highlight).
Abbreviation CreateAction_post :=
  (Website.CreateAction_post configuration list_languages highlight).
Abbreviation CreateAction_post_retrying :=
  (Website.CreateAction_post_retrying configuration list_languages highlight).
Abbreviation CreateAction_build := (Website.CreateAction_build configuration highlight).
Abbreviation CreateAction_drawn := (Website.CreateAction_drawn highlight).
Abbreviation CreateAction_valid := (Website.CreateAction_valid configuration list_languages).
Abbreviation handle := (Website.handle configuration list_languages highlight filename_clean).
Abbreviation run := (Website.run configuration list_languages highlight filename_clean).
Abbreviation FileDownload_get := (Website.FileDownload_get filename_clean).
Abbreviation PasteDownload_get := (Website.PasteDownload_get filename_clean).
Abbreviation suggested_filename := (Website.suggested_filename filename_clean).
Abbreviation Create_get := (Website.Create_get configuration list_languages).
Abbreviation reachable :=
  (Website.reachable configuration list_languages highlight filename_clean).

(** The surroundings of the sample deployment: a file constructor that
    enforces the size limit, a paste constructor that never raises, a
    store without further constraints. *)
Definition File_check : string → string → string → option string → option Exception :=
  Website.File_size_check configuration highlight.

Definition Paste_check (now : Z) (slug : string) (expiry : Z) (src : string)
    : option Exception := None.

Definition store_accepts (db : Store) (p : Paste) : bool := true.

Abbreviation Create_post_checked :=
  (Website.Create_post_checked configuration list_languages highlight
     File_check Paste_check store_accepts).
Abbreviation Create_post_request :=
  (Website.Create_post_request configuration list_languages highlight
     File_check Paste_check store_accepts).

(** A text with a control character in it: [a], U+0001, [b]. *)
Definition bell : string := String "a" (String (ascii_of_nat 1) (String "b" EmptyString)).

(** The body of a request to the legacy endpoint, with [code] as the code. *)
Definition body (code : string) : gmap string (list string) :=
  <["lexer" := ["text"]]> (<["code" := [code]]> (<["expiry" := ["1day"]]> ∅)).

(** A second paste with the content of the first file of [old_paste]. *)
Definition twin_paste : Paste :=
  {| slug := "twin"; exp_date := 60; removal := "other"; src := "web";
     files := [ {| file_slug := "twin"; raw := "x"; lexer := "python"; filename := None;
                   fmt := "<pre class=python>x</pre>" |} ] |}.

(** The multi-file creation of [two_files] at instant 10, and the store
    it leaves when it is the first request. *)
Definition two_files_request : Request :=
  CreateActionReq 10 "tok" slug_context two_files.

Definition after_two_files : Store := (handle two_files_request []).2.

(** The paste that creation stores. *)
Definition two_files_paste : Paste :=
  {| slug := "n0"; exp_date := 86410; removal := "tok"; src := "web";
     files := [ {| file_slug := "n0"; raw := "a"; lexer := "text";
                   filename := Some "x.txt"; fmt := "<pre class=text>a</pre>" |};
                {| file_slug := "n2"; raw := "b"; lexer := "text";
                   filename := Some "y.txt"; fmt := "<pre class=text>b</pre>" |} ] |}.

End Sample.

(** * Properties *)

(** ** Facts about the store *)

Section StoreFacts.

Lemma find_None_iff {A} (f : A → bool) (l : list A) :
  List.find f l = None ↔ ∀ x, x ∈ l → f x = false.
Proof.
  induction l as [|a l IH]; simpl.
  - split; [intros _ x Hx; inversion Hx | done].
  - destruct (f a) eqn:Ha.
    + split; [done | intros H]. specialize (H a (list_elem_of_here _ _)). congruence.
    + rewrite IH. split.
      * intros H x Hx. apply elem_of_cons in Hx as [->|Hx]; auto.
      * intros H x Hx. apply H. by apply list_elem_of_further.
Qed.

Lemma find_Some_elem {A} (f : A → bool) (l : list A) (x : A) :
  List.find f l = Some x → x ∈ l ∧ f x = true.
Proof.
  intros H. apply find_some in H as [H1 H2]. by rewrite list_elem_of_In.
Qed.

(** In a list without two elements of the same key, an element is
    determined by its key. *)
Lemma NoDup_fmap_key {A B} (g : A → B) (l : list A) (x y : A) :
  NoDup (g <$> l) → x ∈ l → y ∈ l → g x = g y → x = y.
Proof.
  induction l as [|a l IH]; simpl; intros Hnd Hx Hy Hg.
  - inversion Hx.
  - apply NoDup_cons in Hnd as [Ha Hnd].
    apply elem_of_cons in Hx as [->|Hx]; apply elem_of_cons in Hy as [->|Hy]; auto.
    + exfalso. apply Ha. rewrite Hg. apply list_elem_of_fmap. eauto.
    + exfalso. apply Ha. rewrite <- Hg. apply list_elem_of_fmap. eauto.
Qed.

Lemma elem_of_file_rows (db : Store) (f : File) (p : Paste) :
  (f, p) ∈ file_rows db ↔ p ∈ db ∧ f ∈ files p.
Proof.
  unfold file_rows. rewrite list_elem_of_bind. split.
  - intros (q & Hf & Hq). apply list_elem_of_fmap in Hf as (f' & Heq & Hf').
    by simplify_eq.
  - intros [Hp Hf]. exists p. split; [|done]. apply list_elem_of_fmap. eauto.
Qed.

Lemma elem_of_paste_slugs (db : Store) (s : string) :
  s ∈ paste_slugs db ↔ ∃ p, p ∈ db ∧ slug p = s.
Proof.
  unfold paste_slugs. rewrite list_elem_of_fmap. split.
  - intros (p & -> & Hp). eauto.
  - intros (p & Hp & <-). eauto.
Qed.

Lemma elem_of_file_slugs (db : Store) (s : string) :
  s ∈ file_slugs db ↔ ∃ f p, p ∈ db ∧ f ∈ files p ∧ file_slug f = s.
Proof.
  unfold file_slugs. rewrite list_elem_of_fmap. split.
  - intros ([f p] & -> & H). apply elem_of_file_rows in H as [Hp Hf]. eauto.
  - intros (f & p & Hp & Hf & <-). exists (f, p). split; [done|].
    by apply elem_of_file_rows.
Qed.

Lemma query_paste_slug_None (db : Store) (s : string) :
  query_paste_slug db s = None ↔ s ∉ paste_slugs db.
Proof.
  unfold query_paste_slug. rewrite find_None_iff, elem_of_paste_slugs. split.
  - intros H (p & Hp & Hs). specialize (H p Hp). by case_bool_decide.
  - intros H p Hp. case_bool_decide; [|done]. exfalso. eauto.
Qed.

Lemma query_paste_slug_Some (db : Store) (s : string) (p : Paste) :
  query_paste_slug db s = Some p → p ∈ db ∧ slug p = s.
Proof.
  intros H. apply find_Some_elem in H as [H1 H2]. by case_bool_decide.
Qed.

Lemma query_paste_removal_None (db : Store) (r : string) :
  query_paste_removal db r = None ↔ ∀ p, p ∈ db → removal p ≠ r.
Proof.
  unfold query_paste_removal. rewrite find_None_iff. split.
  - intros H p Hp. specialize (H p Hp). by case_bool_decide.
  - intros H p Hp. case_bool_decide; [|done]. exfalso. by eapply H.
Qed.

Lemma query_paste_removal_Some (db : Store) (r : string) (p : Paste) :
  query_paste_removal db r = Some p → p ∈ db ∧ removal p = r.
Proof.
  intros H. apply find_Some_elem in H as [H1 H2]. by case_bool_decide.
Qed.

Lemma query_file_slug_None (db : Store) (s : string) :
  query_file_slug db s = None ↔ s ∉ file_slugs db.
Proof.
  unfold query_file_slug, file_slugs. rewrite find_None_iff, list_elem_of_fmap. split.
  - intros H (r & Hs & Hr). specialize (H r Hr). by case_bool_decide.
  - intros H r Hr. case_bool_decide; [|done]. exfalso. eauto.
Qed.

Lemma query_file_slug_Some (db : Store) (s : string) (f : File) (p : Paste) :
  query_file_slug db s = Some (f, p) → p ∈ db ∧ f ∈ files p ∧ file_slug f = s.
Proof.
  intros H. apply find_Some_elem in H as [H1 H2].
  apply elem_of_file_rows in H1 as [Hp Hf]. simpl in H2.
  apply bool_decide_eq_true in H2. done.
Qed.

Lemma elem_of_session_delete (db : Store) (p q : Paste) :
  q ∈ session_delete db p ↔ slug q ≠ slug p ∧ q ∈ db.
Proof. unfold session_delete. by rewrite list_elem_of_filter. Qed.

Lemma file_rows_app (db1 db2 : Store) :
  file_rows (db1 ++ db2) = file_rows db1 ++ file_rows db2.
Proof. unfold file_rows. by rewrite bind_app. Qed.

Lemma file_slugs_app (db1 db2 : Store) :
  file_slugs (db1 ++ db2) = file_slugs db1 ++ file_slugs db2.
Proof. unfold file_slugs. by rewrite file_rows_app, fmap_app. Qed.

Lemma file_slugs_singleton (p : Paste) :
  file_slugs [p] = file_slug <$> files p.
Proof.
  unfold file_slugs, file_rows. simpl. rewrite app_nil_r.
  rewrite <- list_fmap_compose. done.
Qed.

Lemma session_delete_sublist (db : Store) (p : Paste) :
  session_delete db p `sublist_of` db.
Proof. apply sublist_filter. Qed.

Lemma paste_slugs_sublist (db1 db2 : Store) :
  db1 `sublist_of` db2 → paste_slugs db1 `sublist_of` paste_slugs db2.
Proof. intros H. unfold paste_slugs. by rewrite H. Qed.

Lemma file_rows_sublist (db1 db2 : Store) :
  db1 `sublist_of` db2 → file_rows db1 `sublist_of` file_rows db2.
Proof. intros H. unfold file_rows. by rewrite H. Qed.

Lemma file_slugs_sublist (db1 db2 : Store) :
  db1 `sublist_of` db2 → file_slugs db1 `sublist_of` file_slugs db2.
Proof. intros H. unfold file_slugs. by rewrite (file_rows_sublist _ _ H). Qed.

Lemma store_wf_sublist (db1 db2 : Store) :
  db1 `sublist_of` db2 → store_wf db2 → store_wf db1.
Proof.
  intros Hs [H1 H2]. split.
  - apply (sublist_NoDup _ (paste_slugs db2)); [done | by apply paste_slugs_sublist].
  - apply (sublist_NoDup _ (file_slugs db2)); [done | by apply file_slugs_sublist].
Qed.

Lemma store_wf_nil : store_wf [].
Proof. split; constructor. Qed.

Lemma unique_slugs_spec (db : Store) (p : Paste) :
  unique_slugs db p = true ↔
  ((slug p ∉ paste_slugs db)
   ∧ (∀ f, f ∈ files p → file_slug f ∉ file_slugs db)
   ∧ NoDup (file_slug <$> files p)).
Proof.
  unfold unique_slugs. rewrite !andb_true_iff, !bool_decide_eq_true.
  rewrite forallb_forall. split.
  - intros [[H1 H2] H3]. split; [done|]. split; [|done].
    intros f Hf. apply list_elem_of_In, H2 in Hf.
    by apply bool_decide_eq_true in Hf.
  - intros (H1 & H2 & H3). split; [|done]. split; [done|].
    intros f Hf. apply bool_decide_eq_true. apply H2. by apply list_elem_of_In.
Qed.

(** A commit that succeeds appends the paste and keeps the constraints. *)
Lemma session_add_wf (db db' : Store) (p : Paste) :
  store_wf db → session_add db p = Some db' → db' = db ++ [p] ∧ store_wf db'.
Proof.
  unfold session_add. intros [Hp Hf] H.
  destruct (unique_slugs db p) eqn:Hu; [|done]. simplify_eq. split; [done|].
  apply unique_slugs_spec in Hu as (H1 & H2 & H3). split.
  - unfold paste_slugs. rewrite fmap_app. apply NoDup_app. split; [done|].
    split; [|apply NoDup_singleton].
    intros s Hs Hs'. apply list_elem_of_singleton in Hs'. by subst.
  - rewrite file_slugs_app, file_slugs_singleton. apply NoDup_app.
    split; [done|]. split; [|done].
    intros s Hs Hs'. apply list_elem_of_fmap in Hs' as (f & -> & Hf'). by eapply H2.
Qed.

(** *** What a deletion leaves behind *)

Lemma session_delete_paste_slug (db : Store) (p : Paste) :
  slug p ∉ paste_slugs (session_delete db p).
Proof.
  intros (q & Hq & Hs)%elem_of_paste_slugs.
  by apply elem_of_session_delete in Hq as [Hne _].
Qed.

Lemma session_delete_file_rows (db : Store) (p : Paste) (f : File) (q : Paste) :
  (f, q) ∈ file_rows (session_delete db p) → slug q ≠ slug p.
Proof.
  intros [Hq _]%elem_of_file_rows. by apply elem_of_session_delete in Hq as [Hne _].
Qed.

(** With unique file slugs, all the files of the deleted paste are gone. *)
Lemma session_delete_file_slugs (db : Store) (p : Paste) (f : File) :
  store_wf db → p ∈ db → f ∈ files p → file_slug f ∉ file_slugs (session_delete db p).
Proof.
  intros [_ Hnd] Hp Hf (f' & q & Hq & Hf' & Hs)%elem_of_file_slugs.
  apply elem_of_session_delete in Hq as [Hne Hq].
  assert ((f', q) = (f, p)) as [= _ ->]; [|done].
  apply (NoDup_fmap_key (λ r, file_slug r.1) (file_rows db)); try done.
  - by apply elem_of_file_rows.
  - by apply elem_of_file_rows.
Qed.

End StoreFacts.

(** ** [Remove] *)

(** C3, amended. [Remove] answers with the redirect to the home view
    exactly when the token is the removal token of a paste in the store
    (the first such paste) that has not expired; for every other token,
    and for the token of an expired paste, it answers NotFound. *)
Theorem Remove_redirects_on_success_only (now : Z) (token : string) (db : Store) :
  ((Remove_get now token db).1 = Redirect "/" [] ↔
     ∃ p, query_paste_removal db token = Some p ∧ (now ≤ exp_date p)%Z)
  ∧ ((Remove_get now token db).1 = NotFound ↔
     ¬ ∃ p, query_paste_removal db token = Some p ∧ (now ≤ exp_date p)%Z).
Proof.
  unfold Remove_get, expired, NotFound.
  destruct (query_paste_removal db token) as [p|] eqn:Hq.
  - case_bool_decide as He; simpl.
    + split; split.
      * done.
      * intros (p' & [= <-] & Hp'). lia.
      * intros _ (p' & [= <-] & Hp'). lia.
      * done.
    + split; split.
      * intros _. exists p. split; [done | lia].
      * done.
      * done.
      * intros []. exists p. split; [done | lia].
  - simpl. split; split.
    + done.
    + by intros (p & ? & _).
    + by intros _ (p & ? & _).
    + done.
Qed.

(** C4, amended. [Remove] deletes something exactly when the token is
    the removal token of a paste in the store: it then deletes that
    paste (the first with this token) with all its files, whether the
    paste has expired or not, and nothing else. It redirects when that
    paste has not expired and answers NotFound when it has. A token that
    is no paste's removal token, a slug for instance, gets NotFound and
    leaves the store as it is. *)
Theorem Remove_deletes_token_owner (now : Z) (token : string) (db : Store) :
  (∀ p, query_paste_removal db token = Some p →
      p ∈ db ∧ removal p = token
      ∧ (Remove_get now token db).2 = session_delete db p
      ∧ (∀ q, q ∈ session_delete db p ↔ q ∈ db ∧ slug q ≠ slug p)
      ∧ (∀ f q, (f, q) ∈ file_rows (session_delete db p) → slug q ≠ slug p)
      ∧ ((now ≤ exp_date p)%Z → (Remove_get now token db).1 = Redirect "/" [])
      ∧ ((exp_date p < now)%Z → (Remove_get now token db).1 = NotFound))
  ∧ ((∀ q, q ∈ db → removal q ≠ token) → Remove_get now token db = (NotFound, db))
  ∧ ((∃ q, q ∈ db ∧ removal q = token) → ∃ p, query_paste_removal db token = Some p).
Proof.
  split; [|split].
  - intros p Hq. pose proof (query_paste_removal_Some _ _ _ Hq) as [Hp Hr].
    unfold Remove_get, expired. rewrite Hq.
    split; [done|]. split; [done|]. split; [by case_bool_decide|].
    split; [|split; [|split]].
    + intros q. rewrite elem_of_session_delete. split; intros [? ?]; done.
    + apply session_delete_file_rows.
    + intros He. by rewrite bool_decide_false by lia.
    + intros He. by rewrite bool_decide_true by lia.
  - intros Hnone. apply query_paste_removal_None in Hnone.
    unfold Remove_get. by rewrite Hnone.
  - intros (q & Hq & Hr). destruct (query_paste_removal db token) as [p|] eqn:Hp; [eauto|].
    exfalso. rewrite query_paste_removal_None in Hp. by eapply Hp.
Qed.

(** ** Facts about Python strings and lists *)

Section PyFacts.

Lemma truthy_strip (s : string) : Py.truthy (Py.strip s) = true → Py.truthy s = true.
Proof. by destruct s. Qed.

Lemma truthy_true (s : string) : Py.truthy s = true ↔ s ≠ "".
Proof. by destruct s. Qed.

Lemma nonempty_true {A} (l : list A) : Py.nonempty l = true ↔ l ≠ [].
Proof. by destruct l. Qed.

Lemma length_zip3 {A B C} (a : list A) (b : list B) (c : list C) :
  List.length b = List.length a → List.length c = List.length a →
  List.length (Py.zip3 a b c) = List.length a.
Proof.
  revert b c. induction a as [|x a IH]; intros [|y b] [|z c]; simpl; try done.
  intros Hb Hc. f_equal. apply IH; congruence.
Qed.

Lemma lookup_zip3 {A B C} (a : list A) (b : list B) (c : list C) (i : nat) x y z :
  Py.zip3 a b c !! i = Some (x, y, z) ↔ a !! i = Some x ∧ b !! i = Some y ∧ c !! i = Some z.
Proof.
  revert b c i. induction a as [|x' a IH]; intros [|y' b] [|z' c] [|i]; simpl;
    try (split; [done | intros (? & ? & ?); done]).
  - split; [by intros [= -> -> ->] | by intros ([= ->] & [= ->] & [= ->])].
  - apply IH.
Qed.

Lemma lstrip_blank (s : string) :
  Forall (λ c, Py.isspace c = true) (list_ascii_of_string s) → Py.lstrip s = "".
Proof.
  induction s as [|c s IH]; simpl; [done|].
  intros [Hc Hs]%Forall_cons. rewrite Hc. by apply IH.
Qed.

Lemma lstrip_isspace (s : string) :
  Forall (λ c, Py.isspace c = true) (list_ascii_of_string (Py.lstrip s)) →
  Forall (λ c, Py.isspace c = true) (list_ascii_of_string s).
Proof.
  induction s as [|c s IH]; simpl; [done|].
  destruct (Py.isspace c) eqn:Hc; [|done].
  intros H. apply Forall_cons. split; [done | by apply IH].
Qed.

Lemma rstrip_isspace (s : string) :
  Py.rstrip s = "" → Forall (λ c, Py.isspace c = true) (list_ascii_of_string s).
Proof.
  induction s as [|c s IH]; simpl; [by constructor|].
  destruct (Py.isspace c) eqn:Hc; simpl; [|done].
  destruct (Py.rstrip s) eqn:Hr; simpl; [|done].
  intros _. apply Forall_cons. split; [done | by apply IH].
Qed.

(** A string strips to the empty string exactly when it is empty or
    made of whitespace only. *)
Lemma strip_blank (s : string) :
  Py.strip s = "" ↔ Forall (λ c, Py.isspace c = true) (list_ascii_of_string s).
Proof.
  unfold Py.strip. split.
  - intros H. by apply lstrip_isspace, rstrip_isspace.
  - intros H. by rewrite lstrip_blank.
Qed.

End PyFacts.

(** ** Facts about the handlers *)

Section HandlerFacts.

Context (configuration : Configuration) (list_languages : list string).
Context (highlight : string → string → string → option string → string).
Context (filename_clean : string → string).

Local Abbreviation Create_post := (Website.Create_post configuration list_languages highlight).
Local Abbreviation Create_build := (Website.Create_build highlight).
Local Abbreviation CreateAction_post :=
  (Website.CreateAction_post configuration list_languages highlight).
Local Abbreviation CreateAction_build := (Website.CreateAction_build configuration highlight).
Local Abbreviation CreateAction_files := (Website.CreateAction_files highlight).
Local Abbreviation CreateAction_drawn := (Website.CreateAction_drawn highlight).
Local Abbreviation CreateAction_valid := (Website.CreateAction_valid configuration list_languages).
Local Abbreviation handle := (Website.handle configuration list_languages highlight filename_clean).
Local Abbreviation run := (Website.run configuration list_languages highlight filename_clean).
Local Abbreviation reachable :=
  (Website.reachable configuration list_languages highlight filename_clean).

Lemma length_CreateAction_files (ctx : nat → string) (k : nat) rows :
  List.length (CreateAction_files ctx k rows) = List.length rows.
Proof.
  revert k. induction rows as [|[[lexer raw] filename] rows IH]; intros k; simpl; [done|].
  by rewrite IH.
Qed.

(** The [i]-th file of the loop carries the [i]-th identifier drawn
    in the loop and the [i]-th content, as submitted. *)
Lemma lookup_CreateAction_files (ctx : nat → string) (k : nat) rows (i : nat) (f : File) :
  CreateAction_files ctx k rows !! i = Some f →
  file_slug f = ctx (k + i)
  ∧ ∃ lexer_ raw_ filename_,
      rows !! i = Some (lexer_, raw_, filename_) ∧ raw f = raw_ ∧ lexer f = lexer_
      ∧ filename f = (if Py.truthy filename_ then Some filename_ else None).
Proof.
  revert k i. induction rows as [|[[lexer_ raw_] filename_] rows IH]; intros k [|i]; simpl;
    try done.
  - intros [= <-]. simpl. rewrite Nat.add_0_r. split; [done|]. eauto 10.
  - intros H. apply IH in H as [H1 H2]. split; [|done].
    rewrite H1. f_equal. lia.
Qed.

(** What the validations before the session let through. *)
Lemma CreateAction_post_valid (now : Z) (removal : string)
    (slug_context : bool → nat → string) (a : CreateActionArgs) (db : Store) (seconds : Z) :
  CreateAction_valid a →
  expiries configuration !! arg_expiry a = Some seconds →
  CreateAction_post now removal slug_context a db =
    match CreateAction_build now removal
            (slug_context (bool_decide (arg_long a = None))) seconds a with
    | inl e => (Raise e, db)
    | inr paste =>
        match session_add db paste with
        | None => (Raise IntegrityError, db)
        | Some db' => (Redirect ("/" +:+ slug paste) [removal_cookie paste], db')
        end
    end.
Proof.
  intros (_ & Hne & Hraws & Hnames & Hblank & Hlex) Hexp.
  unfold Website.CreateAction_post. rewrite Hexp.
  assert (Py.nonempty (arg_lexers a) = true) as -> by by apply nonempty_true.
  assert (Py.nonempty (arg_raws a) = true) as ->.
  { apply nonempty_true. intros E. rewrite E in Hraws. by destruct (arg_lexers a). }
  assert (Py.nonempty (arg_filenames a) = true) as ->.
  { apply nonempty_true. intros E. rewrite E in Hnames. by destruct (arg_lexers a). }
  simpl negb at 1. cbv iota.
  assert (forallb (λ raw, Py.truthy (Py.strip raw)) (arg_raws a) = true) as ->.
  { apply forallb_forall. intros raw_ Hin. apply truthy_true.
    rewrite Forall_forall in Hblank. apply Hblank. by apply list_elem_of_In. }
  simpl negb at 1. cbv iota.
  assert (existsb (λ n, negb (n =? List.length (arg_lexers a))%nat)
            [List.length (arg_lexers a); List.length (arg_raws a);
             List.length (arg_filenames a)] = false) as ->.
  { simpl. rewrite Hraws, Hnames, Nat.eqb_refl. done. }
  assert (existsb (λ lexer_, negb (bool_decide (lexer_ ∈ list_languages)))
            (arg_lexers a) = false) as ->.
  { apply not_true_is_false. intros H. apply existsb_exists in H as (l & Hin & Hl).
    rewrite Forall_forall in Hlex. apply list_elem_of_In, Hlex in Hin.
    by rewrite bool_decide_true in Hl. }
  done.
Qed.

Lemma CreateAction_build_too_large (now : Z) (removal : string) (ctx : nat → string)
    (seconds : Z) (a : CreateActionArgs) :
  (total_size (CreateAction_drawn ctx a) > paste_size configuration)%Z →
  CreateAction_build now removal ctx seconds a =
    inl (ValidationError (size_message configuration (total_size (CreateAction_drawn ctx a)))).
Proof.
  intros H. unfold Website.CreateAction_build, Website.CreateAction_drawn in *. simpl.
  by rewrite bool_decide_true.
Qed.

Lemma CreateAction_build_within (now : Z) (removal : string) (ctx : nat → string)
    (seconds : Z) (a : CreateActionArgs) :
  arg_lexers a ≠ [] →
  List.length (arg_raws a) = List.length (arg_lexers a) →
  List.length (arg_filenames a) = List.length (arg_lexers a) →
  (total_size (CreateAction_drawn ctx a) ≤ paste_size configuration)%Z →
  ∃ file rest,
    CreateAction_drawn ctx a = file :: rest
    ∧ CreateAction_build now removal ctx seconds a =
        inr {| slug := ctx 0; exp_date := now + seconds; removal := removal; src := "web";
               files := set_file_slug file (ctx 0) :: rest |}.
Proof.
  intros Hne Hraws Hnames Hsize.
  unfold Website.CreateAction_build, Website.CreateAction_drawn in *. simpl.
  rewrite bool_decide_false by lia.
  destruct (CreateAction_files ctx 1 _) as [|file rest] eqn:Hfiles.
  - exfalso. apply (f_equal List.length) in Hfiles.
    rewrite length_CreateAction_files, length_zip3 in Hfiles by done.
    by destruct (arg_lexers a).
  - by exists file, rest.
Qed.

(** C1. For every valid creation request, legacy single-file
    ([Create.post]) or multi-file ([CreateAction.post]), the paste the
    handler builds has a first file whose slug is the slug of the paste,
    and every later file keeps the identifier that was drawn for it (the
    [i]-th later file the identifier of draw [2 + i], draw 0 being the
    paste's and draw 1 the one the first file gave up). That paste is
    what the handler commits: it is appended to the store and the
    client is sent to it, unless the store refuses the commit. *)
Theorem first_file_has_paste_slug :
  (∀ now removal slug_create lexer_ raw_ expiry seconds db,
      lexer_ ∈ list_languages →
      Py.strip raw_ ≠ "" →
      expiries configuration !! expiry = Some seconds →
      ∃ paste file,
        paste = Create_build now removal slug_create lexer_ raw_ seconds
        ∧ slug paste = slug_create
        ∧ files paste = [file]
        ∧ file_slug file = slug paste
        ∧ Create_post now removal slug_create lexer_ raw_ expiry db =
            if unique_slugs db paste
            then (Redirect ("/" +:+ slug paste) [removal_cookie paste], db ++ [paste])
            else (Raise IntegrityError, db))
  ∧ (∀ now removal slug_context a db seconds,
      CreateAction_valid a →
      expiries configuration !! arg_expiry a = Some seconds →
      (total_size (CreateAction_drawn (slug_context (bool_decide (arg_long a = None))) a)
         ≤ paste_size configuration)%Z →
      ∃ paste file rest,
        CreateAction_build now removal (slug_context (bool_decide (arg_long a = None)))
          seconds a = inr paste
        ∧ slug paste = slug_context (bool_decide (arg_long a = None)) 0
        ∧ files paste = file :: rest
        ∧ file_slug file = slug paste
        ∧ List.length (files paste) = List.length (arg_lexers a)
        ∧ (∀ i f, rest !! i = Some f →
             file_slug f = slug_context (bool_decide (arg_long a = None)) (2 + i))
        ∧ CreateAction_post now removal slug_context a db =
            if unique_slugs db paste
            then (Redirect ("/" +:+ slug paste) [removal_cookie paste], db ++ [paste])
            else (Raise IntegrityError, db)).
Proof.
  split.
  - intros now removal slug_create lexer_ raw_ expiry seconds db Hlex Hraw Hexp.
    eexists _, _. split; [reflexivity|]. split; [reflexivity|].
    split; [reflexivity|]. split; [reflexivity|].
    unfold Website.Create_post.
    rewrite bool_decide_true by done. simpl negb. cbv iota.
    apply truthy_true in Hraw. rewrite Hraw, (truthy_strip _ Hraw). simpl orb. cbv iota.
    rewrite Hexp. unfold session_add. by destruct (unique_slugs _ _).
  - intros now removal slug_context a db seconds Hvalid Hexp Hsize.
    set (ctx := slug_context (bool_decide (arg_long a = None))) in *.
    pose proof Hvalid as (_ & Hne & Hraws & Hnames & _ & _).
    destruct (CreateAction_build_within now removal ctx seconds a Hne Hraws Hnames Hsize)
      as (file & rest & Hdrawn & Hbuild).
    eexists _, _, rest. split; [exact Hbuild|]. simpl.
    split; [done|]. split; [done|]. split; [done|]. split; [|split].
    + apply (f_equal List.length) in Hdrawn. simpl in Hdrawn. rewrite <- Hdrawn.
      unfold Website.CreateAction_drawn.
      by rewrite length_CreateAction_files, length_zip3.
    + intros i f Hi.
      assert (CreateAction_drawn ctx a !! S i = Some f) as Hf by by rewrite Hdrawn.
      apply lookup_CreateAction_files in Hf as [Hf _]. by rewrite Hf.
    + rewrite (CreateAction_post_valid _ _ _ _ _ seconds) by done.
      fold ctx. rewrite Hbuild. unfold session_add. by destruct (unique_slugs _ _).
Qed.

(** *** Reads and removals never add to the store *)

Lemma handle_sublist (r : Request) (db : Store) :
  creates r = false → (handle r db).2 `sublist_of` db.
Proof.
  destruct r; simpl; try done; intros _;
    unfold Repaste_get, Show_get, RedirectShow_get, FileRaw_get, FileHex_get,
      PasteDownload_get, FileDownload_get, Remove_get;
    repeat case_match; simpl; try done; apply session_delete_sublist.
Qed.

Lemma run_sublist (rs : list Request) (db : Store) :
  Forall (λ r, creates r = false) rs → run rs db `sublist_of` db.
Proof.
  revert db. induction rs as [|r rs IH]; intros db Hrs; simpl; [done|].
  apply Forall_cons in Hrs as [Hr Hrs].
  etrans; [by apply IH | by apply handle_sublist].
Qed.

Lemma paste_slugs_absent_sublist (db db' : Store) (s : string) :
  db' `sublist_of` db → s ∉ paste_slugs db → s ∉ paste_slugs db'.
Proof.
  intros Hsub Hs Hs'. apply Hs.
  eapply elem_of_sublist; [done | by apply paste_slugs_sublist].
Qed.

Lemma file_slugs_absent_sublist (db db' : Store) (s : string) :
  db' `sublist_of` db → s ∉ file_slugs db → s ∉ file_slugs db'.
Proof.
  intros Hsub Hs Hs'. apply Hs.
  eapply elem_of_sublist; [done | by apply file_slugs_sublist].
Qed.

(** *** Reads of what the store does not hold *)

Lemma paste_read_absent (now : Z) (cookie : option string) (s : string) (db : Store)
    (r : Request) :
  s ∉ paste_slugs db → r ∈ paste_reads now cookie s → handle r db = (NotFound, db).
Proof.
  intros Hs%query_paste_slug_None Hr.
  unfold paste_reads, expiring_paste_reads in Hr.
  repeat (apply elem_of_cons in Hr as [->|Hr]); [..|by apply elem_of_nil in Hr]; simpl;
    unfold Repaste_get, Show_get, RedirectShow_get, PasteDownload_get; by rewrite Hs.
Qed.

Lemma file_read_absent (now : Z) (s : string) (db : Store) (r : Request) :
  s ∉ file_slugs db → r ∈ file_reads now s → handle r db = (NotFound, db).
Proof.
  intros Hs%query_file_slug_None Hr.
  unfold file_reads in Hr.
  repeat (apply elem_of_cons in Hr as [->|Hr]); [..|by apply elem_of_nil in Hr]; simpl;
    unfold FileRaw_get, FileHex_get, FileDownload_get; by rewrite Hs.
Qed.

(** C2. A read by slug that finds its record past [exp_date] deletes
    it in the same step and answers NotFound: [Show] (and
    [RedirectShow], [PasteDownload]) delete the paste with its files,
    [FileRaw], [FileHex] and [FileDownload] delete the paste that owns
    the file, with all its files. After that, whatever reads and
    removals follow, every read of that slug answers NotFound. *)
Theorem expired_read_deletes_for_good (db : Store) (now : Z) (s : string) :
  (∀ p, query_paste_slug db s = Some p → (exp_date p < now)%Z →
      (∀ cookie r, r ∈ expiring_paste_reads now cookie s →
         handle r db = (NotFound, session_delete db p))
      ∧ (slug p ∉ paste_slugs (session_delete db p))
      ∧ (∀ f q, (f, q) ∈ file_rows (session_delete db p) → slug q ≠ slug p)
      ∧ (∀ rs now' cookie r,
           Forall (λ r, creates r = false) rs →
           r ∈ paste_reads now' cookie s →
           (handle r (run rs (session_delete db p))).1 = NotFound))
  ∧ (store_wf db →
     ∀ f p, query_file_slug db s = Some (f, p) → (exp_date p < now)%Z →
      (∀ r, r ∈ file_reads now s → handle r db = (NotFound, session_delete db p))
      ∧ (slug p ∉ paste_slugs (session_delete db p))
      ∧ (∀ f', f' ∈ files p → file_slug f' ∉ file_slugs (session_delete db p))
      ∧ (∀ rs now' r,
           Forall (λ r, creates r = false) rs →
           r ∈ file_reads now' s →
           (handle r (run rs (session_delete db p))).1 = NotFound)).
Proof.
  split.
  - intros p Hq Hexp.
    assert (expired p now = true) as He by by apply bool_decide_eq_true.
    pose proof (query_paste_slug_Some _ _ _ Hq) as [Hp Hs].
    split; [|split; [|split]].
    + intros cookie r Hr. unfold expiring_paste_reads in Hr.
      repeat (apply elem_of_cons in Hr as [->|Hr]); [..|by apply elem_of_nil in Hr]; simpl;
        unfold Show_get, RedirectShow_get, PasteDownload_get; by rewrite Hq, He.
    + apply session_delete_paste_slug.
    + apply session_delete_file_rows.
    + intros rs now' cookie r Hrs Hr.
      erewrite paste_read_absent; [done| |done].
      apply (paste_slugs_absent_sublist (session_delete db p)); [by apply run_sublist|].
      rewrite <- Hs. apply session_delete_paste_slug.
  - intros Hwf f p Hq Hexp.
    assert (expired p now = true) as He by by apply bool_decide_eq_true.
    pose proof (query_file_slug_Some _ _ _ _ Hq) as (Hp & Hf & Hs).
    split; [|split; [|split]].
    + intros r Hr. unfold file_reads in Hr.
      repeat (apply elem_of_cons in Hr as [->|Hr]); [..|by apply elem_of_nil in Hr]; simpl;
        unfold FileRaw_get, FileHex_get, FileDownload_get; by rewrite Hq, He.
    + apply session_delete_paste_slug.
    + intros f' Hf'. by apply session_delete_file_slugs.
    + intros rs now' r Hrs Hr.
      erewrite file_read_absent; [done| |done].
      apply (file_slugs_absent_sublist (session_delete db p)); [by apply run_sublist|].
      rewrite <- Hs. by apply session_delete_file_slugs.
Qed.

(** The constraints of the store hold in every store the handlers reach. *)
Lemma handle_wf (r : Request) (db : Store) : store_wf db → store_wf (handle r db).2.
Proof.
  intros Hwf. destruct (creates r) eqn:Hc.
  - destruct r; try done; simpl.
    + unfold Website.Create_post. repeat case_match; simpl; try done.
      by eapply session_add_wf.
    + unfold Website.CreateAction_post. repeat case_match; simpl; try done.
      by eapply session_add_wf.
  - eapply store_wf_sublist; [by apply handle_sublist | done].
Qed.

Lemma reachable_wf (db : Store) : reachable db → store_wf db.
Proof. induction 1; [apply store_wf_nil | by apply handle_wf]. Qed.

(** *** Creation *)

(** What the validations of [Create.post] let through. *)
Lemma Create_post_valid (now : Z) (removal slug_create lexer_ raw_ expiry : string)
    (seconds : Z) (db : Store) :
  lexer_ ∈ list_languages →
  Py.strip raw_ ≠ "" →
  expiries configuration !! expiry = Some seconds →
  Create_post now removal slug_create lexer_ raw_ expiry db =
    match session_add db (Create_build now removal slug_create lexer_ raw_ seconds) with
    | None => (Raise IntegrityError, db)
    | Some db' =>
        (Redirect ("/" +:+ slug_create)
           [{| cookie_name := "removal"; cookie_value := removal;
               cookie_path := "/" +:+ slug_create |}], db')
    end.
Proof.
  intros Hlex Hraw Hexp. unfold Website.Create_post.
  rewrite bool_decide_true by done. simpl negb. cbv iota.
  apply truthy_true in Hraw. rewrite Hraw, (truthy_strip _ Hraw). simpl orb. cbv iota.
  by rewrite Hexp.
Qed.

(** A fresh identifier passes the constraints of the store. *)
Lemma Create_build_unique (now : Z) (removal slug_create lexer_ raw_ : string)
    (seconds : Z) (db : Store) :
  slug_create ∉ paste_slugs db →
  slug_create ∉ file_slugs db →
  unique_slugs db (Create_build now removal slug_create lexer_ raw_ seconds) = true.
Proof.
  intros Hp Hf. apply unique_slugs_spec. simpl. split; [done|]. split.
  - intros f ->%list_elem_of_singleton. done.
  - apply NoDup_singleton.
Qed.

Lemma find_app {A} (f : A → bool) (l1 l2 : list A) :
  List.find f (l1 ++ l2) =
    match List.find f l1 with
    | Some x => Some x
    | None => List.find f l2
    end.
Proof. induction l1 as [|a l1 IH]; simpl; [done|]. by destruct (f a). Qed.

(** C5. A multi-file creation whose total size, the sum over the files
    of the length of their formatted content, exceeds the configured
    maximum fails with a [ValidationError] and leaves the store as it
    was; when nothing else is wrong with the request, the error is the
    one about the size. *)
Theorem oversized_creation_rejected (now : Z) (removal : string)
    (slug_context : bool → nat → string) (a : CreateActionArgs) (db : Store) :
  (total_size (CreateAction_drawn (slug_context (bool_decide (arg_long a = None))) a)
     > paste_size configuration)%Z →
  (∃ message,
      CreateAction_post now removal slug_context a db = (Raise (ValidationError message), db))
  ∧ (CreateAction_valid a →
     CreateAction_post now removal slug_context a db =
       (Raise (ValidationError
                 (size_message configuration
                    (total_size
                       (CreateAction_drawn (slug_context (bool_decide (arg_long a = None))) a)))),
        db)).
Proof.
  intros Hsize. split.
  - unfold Website.CreateAction_post.
    destruct (expiries configuration !! arg_expiry a) as [seconds|]; [|eauto].
    destruct (negb _); [eauto|].
    destruct (negb _); [eauto|].
    destruct (existsb _ _); [eauto|].
    destruct (existsb _ _); [eauto|].
    rewrite CreateAction_build_too_large by done. eauto.
  - intros Hvalid. pose proof Hvalid as ([seconds Hexp] & _).
    rewrite (CreateAction_post_valid _ _ _ _ _ seconds) by done.
    by rewrite CreateAction_build_too_large.
Qed.

(** C6, amended. A commit that fails on a collision of identifiers is
    not retried: [Create.post] and [CreateAction.post] fail at once with
    the [IntegrityError], which is answered as a generic server error,
    and nothing is stored. *)
Theorem commit_conflict_surfaces_at_once :
  (∀ now removal slug_create lexer_ raw_ expiry seconds db,
      lexer_ ∈ list_languages →
      Py.strip raw_ ≠ "" →
      expiries configuration !! expiry = Some seconds →
      session_add db (Create_build now removal slug_create lexer_ raw_ seconds) = None →
      Create_post now removal slug_create lexer_ raw_ expiry db = (Raise IntegrityError, db))
  ∧ (∀ now removal slug_context a db seconds paste,
      CreateAction_valid a →
      expiries configuration !! arg_expiry a = Some seconds →
      CreateAction_build now removal (slug_context (bool_decide (arg_long a = None)))
        seconds a = inr paste →
      session_add db paste = None →
      CreateAction_post now removal slug_context a db = (Raise IntegrityError, db))
  ∧ server_error (Raise IntegrityError)
  ∧ status_of IntegrityError = 500%Z
  ∧ page_text (write_error 500 IntegrityError) = "unknown error".
Proof.
  split; [|split; [|split; [|split]]].
  - intros now removal slug_create lexer_ raw_ expiry seconds db Hlex Hraw Hexp Hadd.
    by rewrite (Create_post_valid _ _ _ _ _ _ seconds), Hadd.
  - intros now removal slug_context a db seconds paste Hvalid Hexp Hbuild Hadd.
    by rewrite (CreateAction_post_valid _ _ _ _ _ seconds), Hbuild, Hadd.
  - unfold server_error. compute_done.
  - done.
  - done.
Qed.

(** C8. For a file that is found and has not expired, [FileDownload]
    suggests [{sanitized filename}-{slug}.txt] when the file has a
    filename and [{slug}.txt] when it has none, the slug being the
    file's own; the entries of the archive of [PasteDownload] are named
    in the same way, one entry per file, in order. *)
Theorem download_filenames (db : Store) (now : Z) :
  (∀ file_id file paste,
      query_file_slug db file_id = Some (file, paste) →
      (now ≤ exp_date paste)%Z →
      FileDownload_get filename_clean now file_id db =
        (Write [("Content-Type", "text/plain; charset=utf-8");
                ("Content-Disposition",
                 "attachment; filename=" +:+ suggested_filename filename_clean file)]
               (Text (raw file)), db))
  ∧ (∀ paste_id paste,
      query_paste_slug db paste_id = Some paste →
      (now ≤ exp_date paste)%Z →
      PasteDownload_get filename_clean now paste_id db =
        (Write [("Content-Type", "application/zip");
                ("Content-Disposition", "attachment; filename=" +:+ slug paste +:+ ".zip")]
               (Zip ((λ file, (suggested_filename filename_clean file, raw file))
                       <$> files paste)), db))
  ∧ (∀ file name,
      filename file = Some name → name ≠ "" →
      suggested_filename filename_clean file =
        filename_clean name +:+ "-" +:+ file_slug file +:+ ".txt")
  ∧ (∀ file,
      filename file = None →
      suggested_filename filename_clean file = file_slug file +:+ ".txt").
Proof.
  assert (∀ file,
    match filename file with
    | Some name =>
        if Py.truthy name then filename_clean name +:+ "-" +:+ file_slug file +:+ ".txt"
        else file_slug file +:+ ".txt"
    | None => file_slug file +:+ ".txt"
    end = suggested_filename filename_clean file) as Hname.
  { intros file. unfold suggested_filename. destruct (filename file) as [[|c name]|]; done. }
  split; [|split; [|split]].
  - intros file_id file paste Hq Hexp. unfold FileDownload_get, expired.
    rewrite Hq, bool_decide_false by lia. by rewrite Hname.
  - intros paste_id paste Hq Hexp. unfold PasteDownload_get, expired.
    rewrite Hq, bool_decide_false by lia. do 3 f_equal.
    apply list_fmap_ext. intros _ file _. unfold PasteDownload_entry. by rewrite Hname.
  - intros file name Hf Hne. unfold suggested_filename. rewrite Hf.
    by rewrite bool_decide_false.
  - intros file Hf. unfold suggested_filename. by rewrite Hf.
Qed.


End HandlerFacts.

(** ** [Create.post] with what surrounds it *)

Section SurroundingFacts.

Context (configuration : Configuration) (list_languages : list string).
Context (highlight : string → string → string → option string → string).
Context (File_check : string → string → string → option string → option Exception).
Context (Paste_check : Z → string → Z → string → option Exception).
Context (store_accepts : Store → Paste → bool).

Local Abbreviation Create_build := (Website.Create_build highlight).
Local Abbreviation Create_post_checked :=
  (Website.Create_post_checked configuration list_languages highlight
     File_check Paste_check store_accepts).
Local Abbreviation Create_post_request :=
  (Website.Create_post_request configuration list_languages highlight
     File_check Paste_check store_accepts).

Lemma remove_control_chars_clean (s : string) :
  Forall (λ c, Tornado.is_control c = false) (list_ascii_of_string s) →
  Tornado.remove_control_chars s = s.
Proof.
  induction s as [|c s IH]; simpl; [done|].
  intros [Hc Hs]%Forall_cons. rewrite Hc. by rewrite IH.
Qed.

Lemma remove_control_chars_length (s : string) :
  String.length (Tornado.remove_control_chars s) = String.length s.
Proof. induction s as [|c s IH]; simpl; [done|]. by rewrite IH. Qed.

(** What an argument read without stripping is: the last value sent,
    its control characters replaced. *)
Lemma get_body_argument_unstripped (name : string) (body_arguments : gmap string (list string))
    (v : string) :
  last (default [] (body_arguments !! name)) = Some v →
  Tornado.get_body_argument name false body_arguments
    = inr (Tornado.remove_control_chars v).
Proof.
  intros Hv. unfold Tornado.get_body_argument, Tornado.get_body_arguments.
  by rewrite fmap_last, Hv.
Qed.

(** What the validations and the constructors let through. *)
Lemma Create_post_checked_valid (now : Z) (token slug_create lexer_ raw_ expiry : string)
    (seconds : Z) (db : Store) :
  lexer_ ∈ list_languages →
  Py.strip raw_ ≠ "" →
  expiries configuration !! expiry = Some seconds →
  Paste_check now slug_create seconds "deprecated-web" = None →
  Create_post_checked now token slug_create lexer_ raw_ expiry db =
    match File_check slug_create raw_ lexer_ None with
    | Some e => (Raise e, db)
    | None =>
        if store_accepts db (Create_build now token slug_create lexer_ raw_ seconds)
           && unique_slugs db (Create_build now token slug_create lexer_ raw_ seconds)
        then (Redirect ("/" +:+ slug_create)
                [ {| cookie_name := "removal"; cookie_value := token;
                     cookie_path := "/" +:+ slug_create |} ],
              db ++ [Create_build now token slug_create lexer_ raw_ seconds])
        else (Raise IntegrityError, db)
    end.
Proof.
  intros Hlex Hraw Hexp Hpaste. unfold Website.Create_post_checked.
  rewrite bool_decide_true by done. simpl negb. cbv iota.
  apply truthy_true in Hraw. rewrite Hraw, (truthy_strip _ Hraw). simpl orb. cbv iota.
  rewrite Hexp, Hpaste. destruct (File_check _ _ _ _); [done|]. cbv zeta.
  destruct (store_accepts _ _); [|done]. unfold session_add.
  by destruct (unique_slugs _ _).
Qed.

(** C7, amended. The text submitted to [Create.post] comes back from
    [FileRaw.get] with each of its control characters (U+0000 to
    U+0008, U+000E to U+001F) replaced by a space and nothing else
    changed: it is read with [strip=False], so that no whitespace is
    taken off its ends, and stored and written as it was read. A text
    without such characters comes back as it was submitted. This is for
    a request that [Create.post] accepts and stores (a known lexer, a
    known expiry, a code that is not blank, constructors and a store
    that accept the paste, a fresh identifier), read before the
    expiry. *)
Theorem Create_Raw_replaces_control_chars (now : Z) (token slug_create : string)
    (body_arguments : gmap string (list string)) (code lexer_ expiry : string)
    (seconds : Z) (db : Store) (now' : Z) :
  last (default [] (body_arguments !! "code")) = Some code →
  Tornado.get_body_argument "lexer" true body_arguments = inr lexer_ →
  Tornado.get_body_argument "expiry" true body_arguments = inr expiry →
  lexer_ ∈ list_languages →
  Py.strip (Tornado.remove_control_chars code) ≠ "" →
  expiries configuration !! expiry = Some seconds →
  Paste_check now slug_create seconds "deprecated-web" = None →
  File_check slug_create (Tornado.remove_control_chars code) lexer_ None = None →
  store_accepts db
    (Create_build now token slug_create lexer_ (Tornado.remove_control_chars code) seconds)
    = true →
  slug_create ∉ paste_slugs db →
  slug_create ∉ file_slugs db →
  (now' ≤ now + seconds)%Z →
  ∃ cookies db',
    Create_post_request now token slug_create body_arguments db
      = (Redirect ("/" +:+ slug_create) cookies, db')
    ∧ FileRaw_get now' slug_create db'
      = (Write [("Content-Type", "text/plain; charset=utf-8")]
           (Text (Tornado.remove_control_chars code)), db')
    ∧ (Forall (λ c, Tornado.is_control c = false) (list_ascii_of_string code) →
       FileRaw_get now' slug_create db'
       = (Write [("Content-Type", "text/plain; charset=utf-8")] (Text code), db')).
Proof.
  intros Hcode Hlexer Hexpiry Hlex Hraw Hexp Hpaste Hfile Haccept Hp Hf Hnow.
  unfold Website.Create_post_request.
  rewrite Hlexer, (get_body_argument_unstripped _ _ _ Hcode), Hexpiry.
  rewrite (Create_post_checked_valid _ _ _ _ _ _ seconds) by done.
  rewrite Hfile, Haccept, (Create_build_unique highlight) by done. simpl andb. cbv iota.
  eexists _, _. split; [reflexivity|].
  assert (FileRaw_get now' slug_create
            (db ++ [Create_build now token slug_create lexer_
                      (Tornado.remove_control_chars code) seconds])
          = (Write [("Content-Type", "text/plain; charset=utf-8")]
               (Text (Tornado.remove_control_chars code)),
             db ++ [Create_build now token slug_create lexer_
                      (Tornado.remove_control_chars code) seconds])) as Hread.
  { unfold FileRaw_get, query_file_slug. rewrite file_rows_app, find_app.
    apply query_file_slug_None in Hf. unfold query_file_slug in Hf. rewrite Hf.
    simpl. rewrite bool_decide_true by done.
    unfold expired. simpl. by rewrite bool_decide_false by lia. }
  split; [exact Hread|]. intros Hclean.
  rewrite Hread. by rewrite (remove_control_chars_clean code Hclean).
Qed.


End SurroundingFacts.

(** ** The handlers on the sample deployment *)

Lemma first_file_has_paste_slug_witness :
  (∃ paste file,
      paste = Sample.Create_build 10 "tok" "abcd" "python" "print(1)" 86400
      ∧ slug paste = "abcd"
      ∧ files paste = [file]
      ∧ file_slug file = slug paste
      ∧ Sample.Create_post 10 "tok" "abcd" "python" "print(1)" "1day" [Sample.old_paste] =
          if unique_slugs [Sample.old_paste] paste
          then (Redirect ("/" +:+ slug paste) [removal_cookie paste],
                [Sample.old_paste] ++ [paste])
          else (Raise IntegrityError, [Sample.old_paste]))
  ∧ (∃ paste file rest,
      Sample.CreateAction_build 10 "tok" (Sample.slug_context true) 86400 Sample.two_files
        = inr paste
      ∧ slug paste = "n0"
      ∧ files paste = file :: rest
      ∧ file_slug file = slug paste
      ∧ List.length (files paste) = 2
      ∧ (∀ i f, rest !! i = Some f → file_slug f = Sample.slug_context true (2 + i))
      ∧ Sample.CreateAction_post 10 "tok" Sample.slug_context Sample.two_files
          [Sample.old_paste] =
          if unique_slugs [Sample.old_paste] paste
          then (Redirect ("/" +:+ slug paste) [removal_cookie paste],
                [Sample.old_paste] ++ [paste])
          else (Raise IntegrityError, [Sample.old_paste])).
Proof.
  split.
  - apply (proj1 (first_file_has_paste_slug
                    Sample.configuration Sample.list_languages Sample.highlight)).
    + compute_done.
    + compute_done.
    + reflexivity.
  - apply (proj2 (first_file_has_paste_slug
                    Sample.configuration Sample.list_languages Sample.highlight)
             10%Z "tok" Sample.slug_context Sample.two_files [Sample.old_paste] 86400%Z).
    + repeat split; compute_done.
    + reflexivity.
    + compute_done.
Defined.

Lemma expired_read_deletes_for_good_witness :
  query_paste_slug [Sample.old_paste] "old" = Some Sample.old_paste
  ∧ query_file_slug [Sample.old_paste] "old2" = Some (Sample.old_second, Sample.old_paste)
  ∧ store_wf [Sample.old_paste]
  ∧ Sample.handle (ShowReq 100 None "old") [Sample.old_paste]
      = (NotFound, session_delete [Sample.old_paste] Sample.old_paste)
  ∧ (Sample.handle (ShowReq 300 None "old")
       (Sample.run [RemoveReq 150 "secret"; FileRawReq 200 "old"]
          (session_delete [Sample.old_paste] Sample.old_paste))).1 = NotFound
  ∧ Sample.handle (FileRawReq 100 "old2") [Sample.old_paste]
      = (NotFound, session_delete [Sample.old_paste] Sample.old_paste)
  ∧ (Sample.handle (FileDownloadReq 300 "old2")
       (Sample.run [ShowReq 150 None "old"; FileHexReq 200 "old2"]
          (session_delete [Sample.old_paste] Sample.old_paste))).1 = NotFound.
Proof.
  pose proof (expired_read_deletes_for_good
                Sample.configuration Sample.list_languages Sample.highlight
                Sample.filename_clean [Sample.old_paste] 100%Z "old") as [Hpaste _].
  pose proof (expired_read_deletes_for_good
                Sample.configuration Sample.list_languages Sample.highlight
                Sample.filename_clean [Sample.old_paste] 100%Z "old2") as [_ Hfile].
  assert (store_wf [Sample.old_paste]) as Hwf.
  { split; compute_done. }
  destruct (Hpaste Sample.old_paste eq_refl ltac:(compute_done)) as (P1 & _ & _ & P2).
  destruct (Hfile Hwf _ Sample.old_paste eq_refl ltac:(compute_done)) as (F1 & _ & _ & F2).
  split; [reflexivity|]. split; [reflexivity|]. split; [exact Hwf|].
  split; [|split; [|split]].
  - apply (P1 None). apply list_elem_of_here.
  - apply (P2 _ 300%Z None); [repeat constructor|].
    apply list_elem_of_further, list_elem_of_here.
  - apply F1. apply list_elem_of_here.
  - apply (F2 _ 300%Z); [repeat constructor|].
    do 2 apply list_elem_of_further. apply list_elem_of_here.
Defined.

Lemma Remove_deletes_token_owner_witness :
  query_paste_removal [Sample.old_paste] "secret" = Some Sample.old_paste
  ∧ Remove_get 10 "secret" [Sample.old_paste] = (Redirect "/" [], [])
  ∧ Remove_get 10 "old" [Sample.old_paste] = (NotFound, [Sample.old_paste]).
Proof.
  destruct (Remove_deletes_token_owner 10 "secret" [Sample.old_paste]) as (Hfound & _ & _).
  destruct (Remove_deletes_token_owner 10 "old" [Sample.old_paste]) as (_ & Hnone & _).
  destruct (Hfound Sample.old_paste eq_refl) as (_ & _ & Hstore & _ & _ & Hredirect & _).
  split; [reflexivity|]. split.
  - rewrite (surjective_pairing (Remove_get 10 "secret" [Sample.old_paste])).
    rewrite Hstore, Hredirect; [reflexivity | compute_done].
  - apply Hnone. intros q Hq. apply list_elem_of_singleton in Hq as ->. compute_done.
Defined.

Lemma oversized_creation_rejected_witness :
  (Py.sum (Py.len <$> arg_raws Sample.wide_file) ≤ paste_size Sample.configuration)%Z
  ∧ (total_size (Sample.CreateAction_drawn (Sample.slug_context true) Sample.wide_file)
       > paste_size Sample.configuration)%Z
  ∧ Sample.CreateAction_valid Sample.wide_file
  ∧ Sample.CreateAction_post 10 "tok" Sample.slug_context Sample.wide_file [Sample.old_paste]
      = (Raise (ValidationError
           "Sum of file sizes exceeds size limit when syntax highlighting applied (0kB > 0kB)"),
         [Sample.old_paste]).
Proof.
  assert (Sample.CreateAction_valid Sample.wide_file) as Hvalid.
  { repeat split; compute_done. }
  split; [compute_done|]. split; [compute_done|]. split; [exact Hvalid|].
  apply (oversized_creation_rejected
           Sample.configuration Sample.list_languages Sample.highlight
           10%Z "tok" Sample.slug_context Sample.wide_file [Sample.old_paste]).
  - compute_done.
  - exact Hvalid.
Defined.

Lemma commit_conflict_surfaces_at_once_witness :
  session_add [Sample.old_paste]
    (Sample.Create_build 10 "tok" "old" "python" "print(1)" 86400) = None
  ∧ Sample.Create_post 10 "tok" "old" "python" "print(1)" "1day" [Sample.old_paste]
      = (Raise IntegrityError, [Sample.old_paste])
  ∧ Sample.CreateAction_post 10 "tok" Sample.slug_context_stale Sample.one_file
      [Sample.old_paste] = (Raise IntegrityError, [Sample.old_paste]).
Proof.
  destruct (commit_conflict_surfaces_at_once
              Sample.configuration Sample.list_languages Sample.highlight)
    as (Hlegacy & Hmulti & _).
  split; [reflexivity|]. split.
  - apply (Hlegacy 10%Z "tok" "old" "python" "print(1)" "1day" 86400%Z).
    + compute_done.
    + compute_done.
    + reflexivity.
    + reflexivity.
  - apply (Hmulti 10%Z "tok" Sample.slug_context_stale Sample.one_file [Sample.old_paste]
             86400%Z
             {| slug := "old"; exp_date := 86410; removal := "tok"; src := "web";
                files := [ {| file_slug := "old"; raw := "hello"; lexer := "text";
                              filename := None;
                              fmt := "<pre class=text>hello</pre>" |} ] |}).
    + repeat split; compute_done.
    + reflexivity.
    + reflexivity.
    + reflexivity.
Defined.

Lemma download_filenames_witness :
  Sample.FileDownload_get 10 "old2" [Sample.old_paste]
    = (Write [("Content-Type", "text/plain; charset=utf-8");
              ("Content-Disposition", "attachment; filename=y_txt-old2.txt")]
             (Text "y"), [Sample.old_paste])
  ∧ Sample.FileDownload_get 10 "old" [Sample.old_paste]
    = (Write [("Content-Type", "text/plain; charset=utf-8");
              ("Content-Disposition", "attachment; filename=old.txt")]
             (Text "x"), [Sample.old_paste])
  ∧ Sample.PasteDownload_get 10 "old" [Sample.old_paste]
    = (Write [("Content-Type", "application/zip");
              ("Content-Disposition", "attachment; filename=old.zip")]
             (Zip [("old.txt", "x"); ("y_txt-old2.txt", "y")]), [Sample.old_paste]).
Proof.
  destruct (download_filenames Sample.filename_clean [Sample.old_paste] 10)
    as (Hfile & Hpaste & _ & _).
  split; [|split].
  - apply (Hfile "old2" Sample.old_second Sample.old_paste); [reflexivity | compute_done].
  - apply (Hfile "old" Sample.old_first Sample.old_paste); [reflexivity | compute_done].
  - apply (Hpaste "old" Sample.old_paste); [reflexivity | compute_done].
Defined.


Lemma Create_Raw_replaces_control_chars_witness :
  ∃ cookies db',
    Sample.Create_post_request 10 "tok" "abcd" (Sample.body "  print(1)  ") [Sample.old_paste]
      = (Redirect "/abcd" cookies, db')
    ∧ FileRaw_get 86410 "abcd" db'
      = (Write [("Content-Type", "text/plain; charset=utf-8")]
           (Text (Tornado.remove_control_chars "  print(1)  ")), db')
    ∧ (Forall (λ c, Tornado.is_control c = false) (list_ascii_of_string "  print(1)  ") →
       FileRaw_get 86410 "abcd" db'
       = (Write [("Content-Type", "text/plain; charset=utf-8")] (Text "  print(1)  "), db')).
Proof.
  apply (Create_Raw_replaces_control_chars
           Sample.configuration Sample.list_languages Sample.highlight
           Sample.File_check Sample.Paste_check Sample.store_accepts
           10 "tok" "abcd" (Sample.body "  print(1)  ") "  print(1)  " "text" "1day"
           86400 [Sample.old_paste] 86410).
  - reflexivity.
  - reflexivity.
  - reflexivity.
  - compute_done.
  - compute_done.
  - reflexivity.
  - reflexivity.
  - reflexivity.
  - reflexivity.
  - compute_done.
  - compute_done.
  - compute_done.
Defined.


(** ** Where the handlers part from the specification *)

(** C3 as stated fails: a token that is no paste's removal token, and
    the token of a paste that has expired, are answered with NotFound,
    not with the redirect to the home view. *)
Lemma Remove_unknown_token_not_redirected :
  Remove_get 10 "nope" [Sample.old_paste] = (Raise (HTTPError 404), [Sample.old_paste])
  ∧ (Remove_get 10 "nope" [Sample.old_paste]).1 ≠ Redirect "/" []
  ∧ (Remove_get 100 "secret" [Sample.old_paste]).1 ≠ Redirect "/" [].
Proof. split; [reflexivity|]. split; compute_done. Qed.

(** C4 as stated fails: the token of a paste that has expired deletes
    that paste although it is not the token of a paste that has not
    expired, and something is deleted although the answer is NotFound. *)
Lemma Remove_deletes_expired_paste :
  (¬ ∃ p, p ∈ [Sample.old_paste] ∧ removal p = "secret" ∧ (100 ≤ exp_date p)%Z)
  ∧ Remove_get 100 "secret" [Sample.old_paste] = (NotFound, [])
  ∧ (Remove_get 100 "secret" [Sample.old_paste]).2 ≠ [Sample.old_paste].
Proof.
  split; [|split; [reflexivity | compute_done]].
  intros (p & ->%list_elem_of_singleton & _ & Hexp). simpl in Hexp. lia.
Qed.

(** C6 as stated fails: when the first identifier drawn is taken,
    [CreateAction.post] fails with the [IntegrityError] and stores
    nothing, although the identifiers that the generator hands out next
    are free: the creation with a single retry stores the paste. *)
Lemma CreateAction_conflict_not_retried :
  Sample.CreateAction_post 10 "tok" Sample.slug_context_stale Sample.one_file
    [Sample.old_paste] = (Raise IntegrityError, [Sample.old_paste])
  ∧ Sample.CreateAction_post_retrying 1 10 "tok" Sample.slug_context_stale Sample.one_file
      [Sample.old_paste]
    = (Redirect "/n2" [ {| cookie_name := "removal"; cookie_value := "tok";
                           cookie_path := "/n2" |} ],
       [Sample.old_paste;
        {| slug := "n2"; exp_date := 86410; removal := "tok"; src := "web";
           files := [ {| file_slug := "n2"; raw := "hello"; lexer := "text";
                         filename := None; fmt := "<pre class=text>hello</pre>" |} ] |}])
  ∧ Sample.CreateAction_post 10 "tok" Sample.slug_context_stale Sample.one_file
      [Sample.old_paste]
    ≠ Sample.CreateAction_post_retrying 1 10 "tok" Sample.slug_context_stale Sample.one_file
        [Sample.old_paste].
Proof. split; [reflexivity|]. split; [reflexivity|]. by vm_compute. Qed.


(** C7 as stated fails: a code with a control character in it is
    accepted and stored, and [FileRaw] returns it with the control
    character replaced by a space, not the text that was submitted. *)
Lemma Create_Raw_not_byte_identical :
  last (default [] (Sample.body Sample.bell !! "code")) = Some Sample.bell
  ∧ Py.strip Sample.bell ≠ ""
  ∧ Sample.Create_post_request 10 "tok" "abcd" (Sample.body Sample.bell) [Sample.old_paste]
    = (Redirect "/abcd"
         [ {| cookie_name := "removal"; cookie_value := "tok"; cookie_path := "/abcd" |} ],
       [Sample.old_paste;
        {| slug := "abcd"; exp_date := 86410; removal := "tok"; src := "deprecated-web";
           files := [ {| file_slug := "abcd"; raw := "a b"; lexer := "text";
                         filename := None; fmt := "<pre class=text>a b</pre>" |} ] |}])
  ∧ FileRaw_get 20 "abcd"
      (Sample.Create_post_request 10 "tok" "abcd" (Sample.body Sample.bell)
         [Sample.old_paste]).2
    = (Write [("Content-Type", "text/plain; charset=utf-8")] (Text "a b"),
       (Sample.Create_post_request 10 "tok" "abcd" (Sample.body Sample.bell)
          [Sample.old_paste]).2)
  ∧ "a b" ≠ Sample.bell.
Proof.
  split; [reflexivity|]. split; [compute_done|]. split; [reflexivity|].
  split; [reflexivity|]. compute_done.
Qed.


(** * Further properties of the handlers *)

Section LifecycleFacts.

Context (configuration : Configuration) (list_languages : list string).
Context (highlight : string → string → string → option string → string).
Context (filename_clean : string → string).

Local Abbreviation Create_post := (Website.Create_post configuration list_languages highlight).
Local Abbreviation Create_build := (Website.Create_build highlight).
Local Abbreviation Create_get := (Website.Create_get configuration list_languages).
Local Abbreviation CreateAction_post :=
  (Website.CreateAction_post configuration list_languages highlight).
Local Abbreviation CreateAction_build := (Website.CreateAction_build configuration highlight).
Local Abbreviation CreateAction_files := (Website.CreateAction_files highlight).
Local Abbreviation CreateAction_drawn := (Website.CreateAction_drawn highlight).
Local Abbreviation CreateAction_valid := (Website.CreateAction_valid configuration list_languages).
Local Abbreviation handle := (Website.handle configuration list_languages highlight filename_clean).
Local Abbreviation run := (Website.run configuration list_languages highlight filename_clean).
Local Abbreviation reachable :=
  (Website.reachable configuration list_languages highlight filename_clean).

(** ** The shape of a step *)

Lemma session_add_Some (db db' : Store) (p : Paste) :
  session_add db p = Some db' ↔ unique_slugs db p = true ∧ db' = db ++ [p].
Proof.
  unfold session_add. destruct (unique_slugs db p); split.
  - by intros [= <-].
  - by intros [_ ->].
  - done.
  - by intros [? _].
Qed.

Lemma CreateAction_build_headed (now : Z) (token : string) (ctx : nat → string)
    (seconds : Z) (a : CreateActionArgs) (paste : Paste) :
  CreateAction_build now token ctx seconds a = inr paste →
  paste_headed paste ∧ slug paste = ctx 0 ∧ removal paste = token
  ∧ exp_date paste = (now + seconds)%Z.
Proof.
  unfold Website.CreateAction_build. simpl.
  case_bool_decide; [done|].
  destruct (Website.CreateAction_files _ _ _ _) as [|f fs]; [done|].
  by intros [= <-].
Qed.

(** A creation stores nothing or appends one paste and sends the client
    to it with its removal cookie; any other request stores nothing new
    and deletes at most the rows of one slug. *)
Lemma handle_shape (r : Request) (db : Store) :
  (handle r db).2 = db
  ∨ (creates r = true
     ∧ ∃ p, paste_headed p ∧ unique_slugs db p = true
          ∧ handle r db = (Redirect ("/" +:+ slug p) [removal_cookie p], db ++ [p]))
  ∨ (creates r = false ∧ ∃ p, p ∈ db ∧ (handle r db).2 = session_delete db p).
Proof.
  destruct r as [now removal slug_create lexer_ raw_ expiry|now removal ctx a
                |s|now cookie s|now s|now s|now s|now s|now s|now token]; simpl.
  - unfold Website.Create_post.
    destruct (negb _); [by left|]. destruct (_ || _); [by left|].
    destruct (expiries configuration !! expiry) as [seconds|]; [|by left].
    destruct (session_add _ _) as [db'|] eqn:Hadd; [|by left].
    apply session_add_Some in Hadd as [Hu ->]. right. left. split; [done|].
    exists (Create_build now removal slug_create lexer_ raw_ seconds).
    split; [reflexivity|]. by split.
  - unfold Website.CreateAction_post.
    destruct (expiries configuration !! arg_expiry a) as [seconds|]; [|by left].
    destruct (negb _); [by left|]. destruct (negb _); [by left|].
    destruct (existsb _ _); [by left|]. destruct (existsb _ _); [by left|].
    destruct (Website.CreateAction_build _ _ _ _ _ _ _) as [e|paste] eqn:Hbuild; [by left|].
    destruct (session_add _ _) as [db'|] eqn:Hadd; [|by left].
    apply session_add_Some in Hadd as [Hu ->]. right. left. split; [done|].
    exists paste. by apply CreateAction_build_headed in Hbuild as [? _].
  - unfold Repaste_get. destruct (query_paste_slug db s); by left.
  - unfold Show_get. destruct (query_paste_slug db s) as [p|] eqn:Hq; [|by left].
    destruct (expired p now); [|by left]. right. right. split; [done|]. exists p.
    by apply query_paste_slug_Some in Hq as [? _].
  - unfold RedirectShow_get. destruct (query_paste_slug db s) as [p|] eqn:Hq; [|by left].
    destruct (expired p now); [|by left]. right. right. split; [done|]. exists p.
    by apply query_paste_slug_Some in Hq as [? _].
  - unfold FileRaw_get. destruct (query_file_slug db s) as [[f p]|] eqn:Hq; [|by left].
    destruct (expired p now); [|by left]. right. right. split; [done|]. exists p.
    by apply query_file_slug_Some in Hq as [? _].
  - unfold FileHex_get. destruct (query_file_slug db s) as [[f p]|] eqn:Hq; [|by left].
    destruct (expired p now); [|by left]. right. right. split; [done|]. exists p.
    by apply query_file_slug_Some in Hq as [? _].
  - unfold PasteDownload_get. destruct (query_paste_slug db s) as [p|] eqn:Hq; [|by left].
    destruct (expired p now); [|by left]. right. right. split; [done|]. exists p.
    by apply query_paste_slug_Some in Hq as [? _].
  - unfold FileDownload_get. destruct (query_file_slug db s) as [[f p]|] eqn:Hq; [|by left].
    destruct (expired p now); [|by left]. right. right. split; [done|]. exists p.
    by apply query_file_slug_Some in Hq as [? _].
  - unfold Remove_get. destruct (query_paste_removal db token) as [p|] eqn:Hq; [|by left].
    right. right. split; [done|]. exists p.
    apply query_paste_removal_Some in Hq as [? _]. by destruct (expired p now).
Qed.

Lemma Forall_sublist_of {A} (P : A → Prop) (l1 l2 : list A) :
  l1 `sublist_of` l2 → Forall P l2 → Forall P l1.
Proof.
  intros Hsub H. apply Forall_forall. intros x Hx.
  rewrite Forall_forall in H. apply H. by eapply elem_of_sublist.
Qed.

Lemma handle_headed (r : Request) (db : Store) :
  Forall paste_headed db → Forall paste_headed (handle r db).2.
Proof.
  intros H. destruct (handle_shape r db) as [->|[(_ & p & Hp & _ & ->)|(_ & p & _ & ->)]].
  - done.
  - simpl. apply Forall_app. split; [done|]. by apply Forall_singleton.
  - eapply Forall_sublist_of; [apply session_delete_sublist | done].
Qed.

Lemma reachable_headed (db : Store) : reachable db → Forall paste_headed db.
Proof. induction 1; [constructor | by apply handle_headed]. Qed.

(** In a store with unique file slugs whose pastes start with a file
    of their own slug, the file of that slug is the first file of the
    paste of that slug. *)
Lemma query_file_of_paste (db : Store) (s : string) (p : Paste) :
  store_wf db → Forall paste_headed db →
  query_paste_slug db s = Some p →
  ∃ f rest, files p = f :: rest ∧ file_slug f = s ∧ query_file_slug db s = Some (f, p).
Proof.
  intros [_ Hnd] Hhead Hq. apply query_paste_slug_Some in Hq as [Hp Hs].
  rewrite Forall_forall in Hhead. specialize (Hhead p Hp).
  unfold paste_headed in Hhead. destruct (files p) as [|f rest] eqn:Hfiles; [done|].
  exists f, rest. split; [done|]. split; [congruence|].
  assert ((f, p) ∈ file_rows db) as Hrow.
  { apply elem_of_file_rows. split; [done|]. rewrite Hfiles. apply list_elem_of_here. }
  destruct (query_file_slug db s) as [[f' q]|] eqn:Hq'.
  - apply query_file_slug_Some in Hq' as (Hq1 & Hq2 & Hq3).
    f_equal. apply (NoDup_fmap_key (λ r, file_slug r.1) (file_rows db)); try done.
    + by apply elem_of_file_rows.
    + simpl. congruence.
  - exfalso. apply query_file_slug_None in Hq'. apply Hq'.
    apply elem_of_file_slugs. exists f, p. split; [done|]. split; [|congruence].
    rewrite Hfiles. apply list_elem_of_here.
Qed.

(** ** Invariants of the store *)

(** Every store the handlers reach from the empty one has no two pastes
    of the same slug and no two files of the same slug, and each of its
    pastes has at least one file, the first of them under the slug of
    the paste. *)
Theorem reachable_store_invariant (db : Store) :
  reachable db →
  NoDup (paste_slugs db) ∧ NoDup (file_slugs db)
  ∧ ∀ p, p ∈ db → ∃ f rest, files p = f :: rest ∧ file_slug f = slug p.
Proof.
  intros Hr.
  destruct (reachable_wf configuration list_languages highlight filename_clean db Hr)
    as [H1 H2].
  split; [done|]. split; [done|]. intros p Hp.
  pose proof (reachable_headed db Hr) as Hh. rewrite Forall_forall in Hh.
  specialize (Hh p Hp). unfold paste_headed in Hh.
  destruct (files p) as [|f rest]; [done|]. by exists f, rest.
Qed.

(** In a reachable store the slug of a paste, used as a file id,
    addresses the first file of that paste: the file reads of the slug
    find exactly that file. *)
Theorem paste_slug_addresses_first_file (db : Store) (s : string) (p : Paste) :
  reachable db →
  query_paste_slug db s = Some p →
  ∃ f rest, files p = f :: rest ∧ query_file_slug db s = Some (f, p)
    ∧ ∀ now, (now ≤ exp_date p)%Z →
        FileRaw_get now s db
          = (Write [("Content-Type", "text/plain; charset=utf-8")] (Text (raw f)), db).
Proof.
  intros Hr Hq.
  destruct (query_file_of_paste db s p) as (f & rest & Hfiles & _ & Hfq); try done.
  - by apply (reachable_wf configuration list_languages highlight filename_clean).
  - by apply reachable_headed.
  - exists f, rest. split; [done|]. split; [done|]. intros now Hnow.
    unfold FileRaw_get, expired. rewrite Hfq. by rewrite bool_decide_false by lia.
Qed.

(** In a reachable store, once a read of a paste has found it expired
    and deleted it, the reads of a file by that same slug answer
    NotFound as well. *)
Theorem expired_paste_ends_file_reads (db : Store) (now now' : Z) (cookie : option string)
    (s : string) (p : Paste) (r r' : Request) :
  reachable db →
  query_paste_slug db s = Some p →
  (exp_date p < now)%Z →
  r ∈ expiring_paste_reads now cookie s →
  r' ∈ file_reads now' s →
  (handle r db).1 = NotFound
  ∧ handle r' (handle r db).2 = (NotFound, (handle r db).2).
Proof.
  intros Hr Hq Hexp Hin Hin'.
  pose proof (reachable_wf configuration list_languages highlight filename_clean db Hr)
    as Hwf.
  pose proof (reachable_headed db Hr) as Hhead.
  destruct (query_file_of_paste db s p Hwf Hhead Hq) as (f & rest & Hfiles & Hf & Hfq).
  pose proof (query_paste_slug_Some _ _ _ Hq) as [Hp Hs].
  assert (handle r db = (NotFound, session_delete db p)) as ->.
  { assert (expired p now = true) as He by by apply bool_decide_eq_true.
    unfold expiring_paste_reads in Hin.
    repeat (apply elem_of_cons in Hin as [->|Hin]); [..|by apply elem_of_nil in Hin]; simpl;
      unfold Show_get, RedirectShow_get, PasteDownload_get; by rewrite Hq, He. }
  split; [done|]. simpl.
  apply (file_read_absent configuration list_languages highlight filename_clean now' s);
    [|done].
  rewrite <- Hf. apply session_delete_file_slugs; [done..|].
  rewrite Hfiles. apply list_elem_of_here.
Qed.

(** ** What a request does to the store *)

(** No request alters a stored paste: every paste in the store after a
    request was in the store before, or is the one paste a creation has
    just appended. A request that is no creation never makes the store
    longer. *)
Theorem stored_pastes_never_altered (r : Request) (db : Store) :
  (∀ q, q ∈ (handle r db).2 →
      q ∈ db ∨ (creates r = true ∧ (handle r db).2 = db ++ [q]))
  ∧ (creates r = false → (List.length (handle r db).2 ≤ List.length db)%nat).
Proof.
  destruct (handle_shape r db) as [Hs|[(Hc & p & _ & _ & Hs)|(Hc & p & _ & Hs)]].
  - rewrite Hs. split; [by left | done].
  - rewrite Hs. simpl. split; [|by rewrite Hc].
    intros q [Hq|Hq%list_elem_of_singleton]%elem_of_app; [by left|]. subst. by right.
  - rewrite Hs. split.
    + intros q Hq. left. by apply elem_of_session_delete in Hq as [_ ?].
    + intros _. apply sublist_length, session_delete_sublist.
Qed.

(** A creation is all or nothing: when it raises, the store is as it
    was; when it stores, it appends exactly one paste, whose slug is
    new among the pastes, and redirects to that paste with one cookie,
    the removal token of the paste scoped to the path of the paste. *)
Theorem creation_all_or_nothing (r : Request) (db : Store) :
  creates r = true →
  (∀ e, (handle r db).1 = Raise e → (handle r db).2 = db)
  ∧ ((handle r db).2 ≠ db →
     ∃ p, handle r db
            = (Redirect ("/" +:+ slug p)
                 [ {| cookie_name := "removal"; cookie_value := removal p;
                      cookie_path := "/" +:+ slug p |} ], db ++ [p])
          ∧ (slug p ∉ paste_slugs db)).
Proof.
  intros Hc.
  destruct (handle_shape r db) as [Hs|[(_ & p & _ & Hu & Hs)|(Hc' & _)]];
    [| |congruence].
  - split; [done|]. by intros [].
  - rewrite Hs. simpl. split; [done|]. intros _. exists p. split; [done|].
    by apply unique_slugs_spec in Hu as [? _].
Qed.

(** ** [CreateAction.post]: when it stores, and how it fails *)

Lemma CreateAction_post_invalid (now : Z) (token : string)
    (slug_context : bool → nat → string) (a : CreateActionArgs) (db : Store) :
  ¬ CreateAction_valid a →
  ∃ message,
    CreateAction_post now token slug_context a db = (Raise (ValidationError message), db).
Proof.
  intros Hinvalid. unfold Website.CreateAction_post.
  destruct (expiries configuration !! arg_expiry a) as [seconds|] eqn:Hexp; [|eauto].
  destruct (Py.nonempty (arg_lexers a)) eqn:Hl; [|simpl; eauto].
  destruct (Py.nonempty (arg_raws a)) eqn:Hr; [|simpl; eauto].
  destruct (Py.nonempty (arg_filenames a)) eqn:Hf; [|simpl; eauto].
  simpl negb at 1. cbv iota.
  destruct (forallb _ (arg_raws a)) eqn:Hblank; [|simpl; eauto].
  simpl negb at 1. cbv iota.
  destruct (existsb _ [_; _; _]) eqn:Hlen; [eauto|].
  destruct (existsb _ (arg_lexers a)) eqn:Hlex; [eauto|].
  exfalso. apply Hinvalid. unfold Website.CreateAction_valid.
  simpl in Hlen. rewrite !orb_false_r in Hlen.
  apply orb_false_iff in Hlen as [_ Hlen]. apply orb_false_iff in Hlen as [Hlen1 Hlen2].
  apply negb_false_iff, Nat.eqb_eq in Hlen1. apply negb_false_iff, Nat.eqb_eq in Hlen2.
  split; [eauto|]. split; [by apply nonempty_true|]. split; [done|]. split; [done|]. split.
  - apply Forall_forall. intros raw_ Hin. apply truthy_true.
    rewrite forallb_forall in Hblank. apply Hblank. by apply list_elem_of_In.
  - apply Forall_forall. intros lexer_ Hin. destruct (decide (lexer_ ∈ list_languages)); [done|].
    exfalso. assert (existsb (λ lexer, negb (bool_decide (lexer ∈ list_languages)))
                       (arg_lexers a) = true) as Ht; [|congruence].
    apply existsb_exists. exists lexer_. split; [by apply list_elem_of_In|].
    by rewrite bool_decide_false.
Qed.

Lemma CreateAction_files_slugs (ctx : nat → string) (k : nat) rows :
  file_slug <$> CreateAction_files ctx k rows = ctx <$> seq k (List.length rows).
Proof.
  revert k. induction rows as [|[[lexer_ raw_] filename_] rows IH]; intros k; simpl; [done|].
  by rewrite IH.
Qed.

Global Instance CreateAction_valid_dec (a : CreateActionArgs) :
  Decision (CreateAction_valid a).
Proof. unfold Website.CreateAction_valid. apply _. Defined.

(** The outcomes of [CreateAction.post]. *)
Lemma CreateAction_post_cases (now : Z) (token : string)
    (slug_context : bool → nat → string) (a : CreateActionArgs) (db : Store) :
  ((¬ CreateAction_valid a
    ∨ (total_size (CreateAction_drawn (slug_context (bool_decide (arg_long a = None))) a)
         > paste_size configuration)%Z)
   ∧ ∃ message,
       CreateAction_post now token slug_context a db = (Raise (ValidationError message), db))
  ∨ (CreateAction_valid a
     ∧ (total_size (CreateAction_drawn (slug_context (bool_decide (arg_long a = None))) a)
          ≤ paste_size configuration)%Z
     ∧ ∃ paste,
         paste_headed paste
         ∧ slug paste = slug_context (bool_decide (arg_long a = None)) 0
         ∧ removal paste = token
         ∧ file_slug <$> files paste
             = CreateAction_slugs (slug_context (bool_decide (arg_long a = None)))
                 (List.length (arg_lexers a))
         ∧ raw <$> files paste = arg_raws a
         ∧ expiries configuration !! arg_expiry a = Some (exp_date paste - now)%Z
         ∧ (∀ i f, files paste !! i = Some f →
              ∃ filename_,
                arg_filenames a !! i = Some filename_
                ∧ filename f = (if Py.truthy filename_ then Some filename_ else None))
         ∧ CreateAction_post now token slug_context a db =
             if unique_slugs db paste
             then (Redirect ("/" +:+ slug paste) [removal_cookie paste], db ++ [paste])
             else (Raise IntegrityError, db)).
Proof.
  set (ctx := slug_context (bool_decide (arg_long a = None))).
  destruct (decide (CreateAction_valid a)) as [Hvalid|Hinvalid].
  2: { left. split; [by left|]. by apply CreateAction_post_invalid. }
  pose proof Hvalid as ([seconds Hexp] & Hne & Hraws & Hnames & _ & _).
  rewrite (CreateAction_post_valid configuration list_languages highlight
             _ _ _ _ _ seconds Hvalid Hexp). fold ctx.
  destruct (decide (total_size (CreateAction_drawn ctx a) > paste_size configuration)%Z)
    as [Hbig|Hsmall].
  { left. split; [by right|].
    rewrite (CreateAction_build_too_large configuration highlight) by done. eauto. }
  right. split; [done|]. split; [lia|].
  destruct (CreateAction_build_within configuration highlight now token ctx seconds a)
    as (file & rest & Hdrawn & Hbuild); [done..|lia|].
  exists {| slug := ctx 0; exp_date := now + seconds; removal := token; src := "web";
            files := set_file_slug file (ctx 0) :: rest |}.
  rewrite Hbuild. split; [reflexivity|]. split; [reflexivity|].
  split; [reflexivity|]. simpl. split; [|split; [|split; [|split]]].
  - assert (file_slug <$> file :: rest = ctx <$> seq 1 (List.length (arg_lexers a))) as Hs.
    { rewrite <- Hdrawn. unfold Website.CreateAction_drawn.
      by rewrite CreateAction_files_slugs, length_zip3. }
    destruct (arg_lexers a) as [|l ls]; [done|]. simpl in *. by injection Hs as _ ->.
  - assert (raw <$> file :: rest = arg_raws a) as Hr; [|done].
    rewrite <- Hdrawn. unfold Website.CreateAction_drawn.
    apply list_eq. intros i. rewrite list_lookup_fmap.
    destruct (arg_raws a !! i) as [raw_|] eqn:Hi.
    + destruct (lookup_lt_is_Some_2 (arg_lexers a) i) as [lexer_ Hl].
      { rewrite <- Hraws. by eapply lookup_lt_Some. }
      destruct (lookup_lt_is_Some_2 (arg_filenames a) i) as [filename_ Hf].
      { rewrite Hnames, <- Hraws. by eapply lookup_lt_Some. }
      pose proof (proj2 (lookup_zip3 _ _ _ i lexer_ raw_ filename_)
                    (conj Hl (conj Hi Hf))) as Hz.
      destruct (CreateAction_files ctx 1 _ !! i) as [f|] eqn:Hfi.
      * apply lookup_CreateAction_files in Hfi as (_ & ? & ? & ? & Hz' & <- & _).
        simpl. congruence.
      * exfalso. apply lookup_ge_None in Hfi.
        rewrite length_CreateAction_files in Hfi. apply lookup_lt_Some in Hz. lia.
    + apply lookup_ge_None in Hi.
      rewrite lookup_ge_None_2; [done|].
      rewrite length_CreateAction_files, length_zip3 by done. lia.
  - rewrite Hexp. f_equal. lia.
  - intros i f Hi.
    assert (∃ g, CreateAction_drawn ctx a !! i = Some g ∧ filename f = filename g)
      as (g & Hg & ->).
    { rewrite Hdrawn. destruct i as [|i]; simpl in *; [|eauto].
      injection Hi as <-. eauto. }
    apply lookup_CreateAction_files in Hg as (_ & lexer_ & raw_ & filename_ & Hz & _ & _ & Hn).
    apply lookup_zip3 in Hz as (_ & _ & Hz). eauto.
  - unfold session_add. by destruct (unique_slugs db _).
Qed.

(** [CreateAction.post] redirects only for a request that passes the
    validations and whose formatted sizes sum to at most the limit (the
    limit itself is allowed), and only when the slugs the paste and its
    files end up with are free in the store and differ from each
    other. *)
Theorem CreateAction_redirect_requires (now : Z) (token : string)
    (slug_context : bool → nat → string) (a : CreateActionArgs) (db : Store)
    (url : string) (cookies : list Cookie) :
  (CreateAction_post now token slug_context a db).1 = Redirect url cookies →
  CreateAction_valid a
  ∧ (total_size (CreateAction_drawn (slug_context (bool_decide (arg_long a = None))) a)
       ≤ paste_size configuration)%Z
  ∧ (slug_context (bool_decide (arg_long a = None)) 0 ∉ paste_slugs db)
  ∧ (∀ s, s ∈ CreateAction_slugs (slug_context (bool_decide (arg_long a = None)))
                (List.length (arg_lexers a)) →
          s ∉ file_slugs db)
  ∧ NoDup (CreateAction_slugs (slug_context (bool_decide (arg_long a = None)))
             (List.length (arg_lexers a))).
Proof.
  destruct (CreateAction_post_cases now token slug_context a db)
    as [[Hwhy [message ->]]|(Hvalid & Hsize & paste & _ & Hslug & _ & Hslugs & _ & _ & _ & ->)];
    [done|].
  rewrite <- Hslug, <- Hslugs.
  destruct (unique_slugs db paste) eqn:Hu; simpl; [|done]. intros _.
  apply unique_slugs_spec in Hu as (H1 & H2 & H3).
  split; [done|]. split; [done|]. split; [done|].
  split; [|done]. intros s (f & -> & Hf)%list_elem_of_fmap. by apply H2.
Qed.

(** [paste.files[0]] is always in range: [CreateAction.post] never
    fails with an [IndexError], since a request that passes the
    validations has at least one file. And a [ValidationError] of
    [CreateAction.post] leaves the store as it was and is answered with
    status 400 and the message of the error. *)
Theorem CreateAction_first_file_in_range (now : Z) (token : string)
    (slug_context : bool → nat → string) (a : CreateActionArgs) (db : Store) :
  (CreateAction_post now token slug_context a db).1 ≠ Raise IndexError
  ∧ ∀ message,
      (CreateAction_post now token slug_context a db).1 = Raise (ValidationError message) →
      (CreateAction_post now token slug_context a db).2 = db
      ∧ status_of (ValidationError message) = 400%Z
      ∧ write_error 500 (ValidationError message)
          = {| set_status := Some 400%Z; page_text := message; page_status_code := 400 |}.
Proof.
  destruct (CreateAction_post_cases now token slug_context a db)
    as [[_ [message ->]]|(_ & _ & paste & _ & _ & _ & _ & _ & _ & _ & ->)]; simpl.
  - split; [done|]. by intros message' [= <-].
  - destruct (unique_slugs db paste); simpl; by split.
Qed.

(** A read, or a removal, fails in one way only: with
    [HTTPError(404)], which the error page shows as "That page does not
    exist". *)
Theorem read_failures_are_not_found (r : Request) (db : Store) (e : Exception) :
  creates r = false →
  (handle r db).1 = Raise e →
  e = HTTPError 404
  ∧ status_of e = 404%Z
  ∧ write_error (status_of e) e
      = {| set_status := None; page_text := "That page does not exist";
           page_status_code := 404 |}.
Proof.
  intros Hc He. assert (e = HTTPError 404) as ->; [|done].
  destruct r; try done; simpl in He;
    unfold Repaste_get, Show_get, RedirectShow_get, FileRaw_get, FileHex_get,
      PasteDownload_get, FileDownload_get, Remove_get in He;
    repeat case_match; simpl in He; congruence.
Qed.

(** ** Reads of what is there *)

(** A read of a paste or of a file that is found and has not expired
    ([exp_date] itself is not yet expired) answers without an error and
    leaves the store as it is; [Repaste] does so whether the paste has
    expired or not. *)
Theorem live_reads_keep_store (db : Store) (now : Z) (s : string) :
  (∀ p cookie r,
      query_paste_slug db s = Some p → (now ≤ exp_date p)%Z →
      r ∈ paste_reads now cookie s →
      (handle r db).2 = db ∧ ∀ e, (handle r db).1 ≠ Raise e)
  ∧ (∀ f p r,
      query_file_slug db s = Some (f, p) → (now ≤ exp_date p)%Z →
      r ∈ file_reads now s →
      (handle r db).2 = db ∧ ∀ e, (handle r db).1 ≠ Raise e)
  ∧ (∀ p,
      query_paste_slug db s = Some p →
      Repaste_get s db = (Render "create.html" "repaste" p None, db)).
Proof.
  split; [|split].
  - intros p cookie r Hq Hexp Hr.
    assert (expired p now = false) as He by (apply bool_decide_eq_false; lia).
    unfold paste_reads, expiring_paste_reads in Hr.
    repeat (apply elem_of_cons in Hr as [->|Hr]); [..|by apply elem_of_nil in Hr]; simpl;
      unfold Repaste_get, Show_get, RedirectShow_get, PasteDownload_get;
      rewrite Hq, ?He; done.
  - intros f p r Hq Hexp Hr.
    assert (expired p now = false) as He by (apply bool_decide_eq_false; lia).
    unfold file_reads in Hr.
    repeat (apply elem_of_cons in Hr as [->|Hr]); [..|by apply elem_of_nil in Hr]; simpl;
      unfold FileRaw_get, FileHex_get, FileDownload_get; rewrite Hq, He; done.
  - intros p Hq. unfold Repaste_get. by rewrite Hq.
Qed.

(** ** What was created can be read and removed *)

Lemma query_paste_slug_added (db : Store) (p : Paste) :
  slug p ∉ paste_slugs db → query_paste_slug (db ++ [p]) (slug p) = Some p.
Proof.
  intros Hfresh%query_paste_slug_None. unfold query_paste_slug in *.
  rewrite find_app, Hfresh. simpl. by rewrite bool_decide_true.
Qed.



Lemma session_delete_added (db : Store) (p : Paste) :
  slug p ∉ paste_slugs db → session_delete (db ++ [p]) p = db.
Proof.
  intros Hfresh. unfold session_delete. rewrite filter_app.
  rewrite (filter_cons_False _ p) by (intros H; by apply H). rewrite filter_nil, app_nil_r.
  induction db as [|q db IH]; [done|].
  rewrite filter_cons_True.
  - f_equal. apply IH. intros H. apply Hfresh. by apply list_elem_of_further.
  - intros Heq. apply Hfresh. rewrite <- Heq. apply list_elem_of_here.
Qed.




(** A creation that sets a cookie has stored a paste. *)
Lemma handle_created (r : Request) (db : Store) (url : string) (c : Cookie)
    (cookies : list Cookie) (db' : Store) :
  creates r = true →
  handle r db = (Redirect url (c :: cookies), db') →
  ∃ p, unique_slugs db p = true
    ∧ handle r db = (Redirect ("/" +:+ slug p) [removal_cookie p], db ++ [p]).
Proof.
  intros Hc Hh. destruct r; try done; simpl in *.
  - unfold Website.Create_post in *.
    destruct (negb _); [done|]. destruct (_ || _); [done|].
    destruct (expiries configuration !! expiry) as [seconds|]; [|done].
    destruct (session_add _ _) as [db''|] eqn:Hadd; [|done].
    apply session_add_Some in Hadd as [Hu ->]. by eexists.
  - unfold Website.CreateAction_post in *.
    destruct (expiries configuration !! arg_expiry a) as [seconds|]; [|done].
    destruct (negb _); [done|]. destruct (negb _); [done|].
    destruct (existsb _ _); [done|]. destruct (existsb _ _); [done|].
    destruct (Website.CreateAction_build _ _ _ _ _ _ _) as [e|paste]; [done|].
    destruct (session_add _ _) as [db''|] eqn:Hadd; [|done].
    apply session_add_Some in Hadd as [Hu ->]. by eexists.
Qed.

(** The cookie a creation sets is the key to the paste: [Show] offers
    the deletion to the client that sends that cookie and to no other,
    and the cookie is scoped to the path the client is sent to. *)
Theorem creation_cookie_authorizes (r : Request) (db db' : Store) (url : string)
    (c : Cookie) (cookies : list Cookie) :
  creates r = true →
  handle r db = (Redirect url (c :: cookies), db') →
  ∃ p, db' = db ++ [p] ∧ url = "/" +:+ slug p
    ∧ c = {| cookie_name := "removal"; cookie_value := removal p; cookie_path := url |}
    ∧ cookies = []
    ∧ ∀ now sent, (now ≤ exp_date p)%Z →
        Show_get now sent (slug p) db'
          = (Render "show.html" ("View paste " +:+ slug p) p
               (Some (bool_decide (sent = Some (cookie_value c)))), db').
Proof.
  intros Hc Hh.
  destruct (handle_created r db url c cookies db' Hc Hh) as (p & Hu & Hs).
  - rewrite Hs in Hh. injection Hh as <- <- <- <-. exists p.
    split; [done|]. split; [done|]. split; [done|]. split; [done|].
    intros now sent Hnow. pose proof Hu as (Hfresh & _)%unique_slugs_spec.
    unfold Show_get. rewrite query_paste_slug_added by done.
    unfold expired. by rewrite bool_decide_false by lia.
Qed.

(** Creating a paste and then removing it with the token of its
    cookie gives the store back as it was, when no stored paste has the
    same token: before the expiry with the redirect to the home view,
    after it with NotFound. *)
Theorem creation_then_Remove_restores (r : Request) (db db' : Store) (url : string)
    (c : Cookie) (cookies : list Cookie) (now : Z) :
  creates r = true →
  handle r db = (Redirect url (c :: cookies), db') →
  (∀ q, q ∈ db → removal q ≠ cookie_value c) →
  (Remove_get now (cookie_value c) db').2 = db
  ∧ ∃ p, db' = db ++ [p]
      ∧ ((now ≤ exp_date p)%Z → (Remove_get now (cookie_value c) db').1 = Redirect "/" [])
      ∧ ((exp_date p < now)%Z → (Remove_get now (cookie_value c) db').1 = NotFound).
Proof.
  intros Hc Hh Hother.
  destruct (handle_created r db url c cookies db' Hc Hh) as (p & Hu & Hs).
  - rewrite Hs in Hh. injection Hh as <- <- <- <-. simpl in *.
    pose proof Hu as (Hfresh & _)%unique_slugs_spec.
    assert (query_paste_removal (db ++ [p]) (removal p) = Some p) as Hq.
    { unfold query_paste_removal. rewrite find_app.
      apply query_paste_removal_None in Hother. unfold query_paste_removal in Hother.
      rewrite Hother. simpl. by rewrite bool_decide_true. }
    unfold Remove_get, expired. rewrite Hq. split.
    + case_bool_decide; simpl; by apply session_delete_added.
    + exists p. split; [done|]. split; intros Hnow.
      * by rewrite bool_decide_false by lia.
      * by rewrite bool_decide_true by lia.
Qed.

(** A second [Remove] with the same token answers NotFound and leaves
    the store as the first left it, whatever the first answered, when
    the token is that of at most one slug. *)
Theorem Remove_twice_is_not_found (now now' : Z) (token : string) (db : Store) :
  (∀ p q, p ∈ db → q ∈ db → removal p = token → removal q = token → slug p = slug q) →
  Remove_get now' token (Remove_get now token db).2
    = (NotFound, (Remove_get now token db).2).
Proof.
  intros Hone.
  assert (query_paste_removal (Remove_get now token db).2 token = None) as Hq.
  { apply query_paste_removal_None. intros q Hq Hr. unfold Remove_get in Hq.
    destruct (query_paste_removal db token) as [p|] eqn:Hp.
    - apply query_paste_removal_Some in Hp as [Hp Hrp].
      assert (q ∈ session_delete db p) as [Hne Hq']%elem_of_session_delete
        by by destruct (expired p now).
      apply Hne. by apply Hone.
    - simpl in Hq. rewrite query_paste_removal_None in Hp. by eapply Hp. }
  unfold Remove_get at 1. by rewrite Hq.
Qed.

(** ** The hexadecimal dump of [FileHex] *)

(** Every character is encoded as one byte below 128 that is its code,
    or as a lead byte from 192 on followed by a byte from 128 to 191,
    from which the code can be computed back. *)
Lemma utf8_shape_checked :
  forallb
    (λ n, let c := ascii_of_nat n in
          match Py.utf8 c with
          | [b] => (b =? N_of_ascii c)%N && (b <? 128)%N
          | [b1; b2] =>
              (192 <=? b1)%N && (b1 <? 256)%N && (128 <=? b2)%N && (b2 <? 192)%N
              && (N_of_ascii c =? (b1 - 192) * 64 + (b2 - 128))%N
          | _ => false
          end)
    (seq 0 256) = true.
Proof. by vm_compute. Qed.

Lemma utf8_shape (c : ascii) :
  (∃ b, Py.utf8 c = [b] ∧ b = N_of_ascii c ∧ (b < 128)%N)
  ∨ (∃ b1 b2, Py.utf8 c = [b1; b2] ∧ (192 ≤ b1 < 256)%N ∧ (128 ≤ b2 < 192)%N
       ∧ N_of_ascii c = ((b1 - 192) * 64 + (b2 - 128))%N).
Proof.
  pose proof utf8_shape_checked as H. rewrite forallb_forall in H.
  specialize (H (nat_of_ascii c)). rewrite ascii_nat_embedding in H. simpl in H.
  assert (In (nat_of_ascii c) (seq 0 256)) as Hin.
  { apply in_seq. pose proof (nat_ascii_bounded c). lia. }
  specialize (H Hin). destruct (Py.utf8 c) as [|b1 [|b2 [|b3 l]]]; try done.
  - left. exists b1. apply andb_true_iff in H as [H1 H2].
    apply N.eqb_eq in H1. apply N.ltb_lt in H2. done.
  - right. exists b1, b2.
    repeat (apply andb_true_iff in H as [H ?]).
    repeat match goal with
           | H : (_ <=? _)%N = true |- _ => apply N.leb_le in H
           | H : (_ <? _)%N = true |- _ => apply N.ltb_lt in H
           | H : (_ =? _)%N = true |- _ => apply N.eqb_eq in H
           end.
    done.
Qed.

Lemma N_of_ascii_inj (c1 c2 : ascii) : N_of_ascii c1 = N_of_ascii c2 → c1 = c2.
Proof.
  intros H. rewrite <- (ascii_N_embedding c1), <- (ascii_N_embedding c2). by rewrite H.
Qed.

Lemma encode_cons (c : ascii) (s : string) :
  Py.encode (String c s) = Py.utf8 c ++ Py.encode s.
Proof. done. Qed.

Lemma encode_bytes (s : string) : Forall (λ b, (b < 256)%N) (Py.encode s).
Proof.
  induction s as [|c s IH]; [constructor|]. rewrite encode_cons. apply Forall_app.
  split; [|done].
  destruct (utf8_shape c) as [(b & -> & _ & Hb)|(b1 & b2 & -> & Hb1 & Hb2 & _)];
    repeat constructor; lia.
Qed.

Lemma encode_length (s : string) :
  (String.length s ≤ List.length (Py.encode s) ≤ 2 * String.length s)%nat.
Proof.
  induction s as [|c s IH]; [simpl; lia|]. rewrite encode_cons, length_app. simpl.
  destruct (utf8_shape c) as [(b & -> & _)|(b1 & b2 & -> & _)]; simpl; lia.
Qed.

Lemma encode_inj (s1 s2 : string) : Py.encode s1 = Py.encode s2 → s1 = s2.
Proof.
  revert s2. induction s1 as [|c1 s1 IH]; intros [|c2 s2]; try done.
  - rewrite encode_cons.
    destruct (utf8_shape c2) as [(b & -> & _)|(b1 & b2 & -> & _)]; done.
  - rewrite encode_cons.
    destruct (utf8_shape c1) as [(b & -> & _)|(b1 & b2 & -> & _)]; done.
  - rewrite !encode_cons.
    destruct (utf8_shape c1) as [(b & -> & Hc1 & Hb)|(b1 & b2 & -> & Hb1 & Hb2 & Hc1)];
      destruct (utf8_shape c2) as [(b' & -> & Hc2 & Hb')|(b1' & b2' & -> & Hb1' & Hb2' & Hc2)];
      simpl; intros Heq; simplify_eq.
    + f_equal; [by apply N_of_ascii_inj | by apply IH].
    + lia.
    + lia.
    + f_equal; [apply N_of_ascii_inj; congruence | by apply IH].
Qed.

(** A byte is written as two characters among [0-9a-f], from which it
    can be computed back. *)
Lemma hexdigit_checked :
  forallb
    (λ n, let b := N.of_nat n in
          let value (h : ascii) :=
            if (N_of_ascii h <? 58)%N then (N_of_ascii h - 48)%N
            else (N_of_ascii h - 87)%N in
          let hex (h : ascii) :=
            ((48 <=? N_of_ascii h)%N && (N_of_ascii h <=? 57)%N)
            || ((97 <=? N_of_ascii h)%N && (N_of_ascii h <=? 102)%N) in
          hex (Py.hexdigit (N.shiftr b 4)) && hex (Py.hexdigit (N.land b 15))
          && (value (Py.hexdigit (N.shiftr b 4)) * 16
              + value (Py.hexdigit (N.land b 15)) =? b)%N)
    (seq 0 256) = true.
Proof. by vm_compute. Qed.

(** The characters of a hexadecimal dump. *)
Lemma hexdigit_shape (b : N) :
  (b < 256)%N →
  let value (h : ascii) :=
    if (N_of_ascii h <? 58)%N then (N_of_ascii h - 48)%N else (N_of_ascii h - 87)%N in
  Py.hexdigit (N.shiftr b 4) ∈ list_ascii_of_string "0123456789abcdef"
  ∧ Py.hexdigit (N.land b 15) ∈ list_ascii_of_string "0123456789abcdef"
  ∧ (value (Py.hexdigit (N.shiftr b 4)) * 16 + value (Py.hexdigit (N.land b 15)))%N = b.
Proof.
  intros Hb value.
  pose proof hexdigit_checked as H. rewrite forallb_forall in H.
  specialize (H (N.to_nat b)). rewrite N2Nat.id in H.
  assert (In (N.to_nat b) (seq 0 256)) as Hin by (apply in_seq; lia).
  specialize (H Hin). simpl in H.
  apply andb_true_iff in H as [H Hv]. apply andb_true_iff in H as [H1 H2].
  apply N.eqb_eq in Hv.
  assert (∀ h, ((48 <=? N_of_ascii h)%N && (N_of_ascii h <=? 57)%N)
               || ((97 <=? N_of_ascii h)%N && (N_of_ascii h <=? 102)%N) = true →
               h ∈ list_ascii_of_string "0123456789abcdef") as Hhex.
  { intros h Hh. rewrite <- (ascii_N_embedding h).
    set (n := N_of_ascii h) in *. clearbody n.
    assert (n = 48 ∨ n = 49 ∨ n = 50 ∨ n = 51 ∨ n = 52 ∨ n = 53 ∨ n = 54 ∨ n = 55
            ∨ n = 56 ∨ n = 57 ∨ n = 97 ∨ n = 98 ∨ n = 99 ∨ n = 100 ∨ n = 101
            ∨ n = 102)%N as Hcase.
    { apply orb_true_iff in Hh as [Hh|Hh]; apply andb_true_iff in Hh as [Hl Hu];
        apply N.leb_le in Hl; apply N.leb_le in Hu; lia. }
    repeat (destruct Hcase as [->|Hcase]; [compute_done|]). subst. compute_done. }
  split; [by apply Hhex|]. split; [by apply Hhex|]. done.
Qed.

Lemma hexlify_length (bs : list N) :
  String.length (Py.hexlify bs) = (2 * List.length bs)%nat.
Proof. induction bs as [|b bs IH]; simpl; [done|]. rewrite IH. lia. Qed.

Lemma hexlify_chars (bs : list N) :
  Forall (λ b, (b < 256)%N) bs →
  Forall (λ h, h ∈ list_ascii_of_string "0123456789abcdef")
    (list_ascii_of_string (Py.hexlify bs)).
Proof.
  induction 1 as [|b bs Hb _ IH]; simpl; [constructor|].
  pose proof (hexdigit_shape b Hb) as Hs. cbv zeta in Hs. destruct Hs as (H1 & H2 & _).
  apply Forall_cons. split; [done|]. apply Forall_cons. by split.
Qed.

Lemma hexlify_inj (bs1 bs2 : list N) :
  Forall (λ b, (b < 256)%N) bs1 → Forall (λ b, (b < 256)%N) bs2 →
  Py.hexlify bs1 = Py.hexlify bs2 → bs1 = bs2.
Proof.
  intros H1. revert bs2. induction H1 as [|b1 bs1 Hb1 _ IH]; intros bs2 H2 Heq.
  - by destruct bs2.
  - destruct H2 as [|b2 bs2 Hb2 H2]; [done|]. simpl in Heq. injection Heq as Ha Hb Hrest.
    pose proof (hexdigit_shape b1 Hb1) as Hs1. cbv zeta in Hs1.
    destruct Hs1 as (_ & _ & Hv1).
    pose proof (hexdigit_shape b2 Hb2) as Hs2. cbv zeta in Hs2.
    destruct Hs2 as (_ & _ & Hv2).
    rewrite Ha, Hb in Hv1. f_equal; [congruence | by apply IH].
Qed.

(** What [FileHex] writes for a file that is found and has not expired:
    two characters among [0-9a-f] for every byte of the UTF-8 encoding
    of the content, hence at least two characters for every character
    of the content. *)
Theorem FileHex_body_shape (db : Store) (now : Z) (file_id : string) (f : File) (p : Paste) :
  query_file_slug db file_id = Some (f, p) →
  (now ≤ exp_date p)%Z →
  ∃ body,
    FileHex_get now file_id db
      = (Write [("Content-Type", "text/plain; charset=utf-8")] (Text body), db)
    ∧ String.length body = (2 * List.length (Py.encode (raw f)))%nat
    ∧ (2 * String.length (raw f) ≤ String.length body)%nat
    ∧ Forall (λ h, h ∈ list_ascii_of_string "0123456789abcdef") (list_ascii_of_string body).
Proof.
  intros Hq Hexp. unfold FileHex_get, expired.
  rewrite Hq, bool_decide_false by lia.
  eexists. split; [reflexivity|]. rewrite hexlify_length.
  pose proof (encode_length (raw f)). split; [done|]. split; [lia|].
  apply hexlify_chars, encode_bytes.
Qed.

(** The hexadecimal dump loses nothing: two file ids for which
    [FileHex] answers the same get the same answer from [FileRaw]. *)
Theorem FileHex_determines_FileRaw (db : Store) (now : Z) (id1 id2 : string) :
  (FileHex_get now id1 db).1 = (FileHex_get now id2 db).1 →
  (FileRaw_get now id1 db).1 = (FileRaw_get now id2 db).1.
Proof.
  unfold FileHex_get, FileRaw_get.
  destruct (query_file_slug db id1) as [[f1 p1]|];
    destruct (query_file_slug db id2) as [[f2 p2]|];
    repeat (destruct (expired _ now)); simpl; try done.
  intros [= Heq]. do 2 f_equal.
  apply encode_inj, hexlify_inj; [apply encode_bytes..|done].
Qed.

(** ** The form of [Create.get] *)

Lemma split_nonempty (sep : ascii) (s : string) : Py.split sep s ≠ [].
Proof.
  induction s as [|c s IH]; simpl; [done|].
  case_bool_decide; [done|]. by destruct (Py.split sep s).
Qed.

Lemma split_no_sep (sep : ascii) (s : string) :
  sep ∉ list_ascii_of_string s → Py.split sep s = [s].
Proof.
  induction s as [|c s IH]; simpl; [done|]. intros Hsep.
  rewrite bool_decide_false.
  - rewrite IH; [done|]. intros H. apply Hsep. by apply list_elem_of_further.
  - intros ->. apply Hsep. apply list_elem_of_here.
Qed.

Lemma split_app_sep (sep : ascii) (s t : string) :
  sep ∉ list_ascii_of_string s →
  Py.split sep (s +:+ String sep t) = s :: Py.split sep t.
Proof.
  induction s as [|c s IH]; simpl; intros Hsep.
  - by rewrite bool_decide_true.
  - rewrite bool_decide_false.
    + rewrite IH; [done|]. intros H. apply Hsep. by apply list_elem_of_further.
    + intros ->. apply Hsep. apply list_elem_of_here.
Qed.

(** Splitting undoes joining, for pieces without the separator. *)
Lemma split_concat (sep : ascii) (pieces : list string) :
  pieces ≠ [] →
  Forall (λ piece, sep ∉ list_ascii_of_string piece) pieces →
  Py.split sep (String.concat (String sep "") pieces) = pieces.
Proof.
  induction pieces as [|piece pieces IH]; [done|]. intros _ [Hp Hps]%Forall_cons.
  destruct pieces as [|piece' pieces].
  - simpl. by apply split_no_sep.
  - change (String.concat (String sep "") (piece :: piece' :: pieces))
      with (piece +:+ String sep (String.concat (String sep "") (piece' :: pieces))).
    rewrite split_app_sep by done. f_equal. by apply IH.
Qed.

(** [Create.get] answers with the form or with [HTTPError(404)]; the
    form always preselects at least one lexer, and only known ones. *)
Theorem Create_get_preselects_known (lexers : string) :
  match Create_get lexers with
  | inl e => e = HTTPError 404
  | inr form =>
      form_lexers form ≠ []
      ∧ Forall (λ lexer_, lexer_ ∈ list_languages) (form_lexers form)
      ∧ form_lexers_available form = list_languages
      ∧ form_expiries form = expiries configuration
  end.
Proof.
  unfold Website.Create_get.
  set (named := List.filter _ _).
  set (selected := if negb (Py.nonempty named) then _ else _).
  destruct (forallb _ selected) eqn:Hall; simpl; [|done].
  split.
  - subst selected. destruct named; simpl; done.
  - split; [|done]. apply Forall_forall. intros lexer_ Hin.
    rewrite forallb_forall in Hall. apply list_elem_of_In, Hall in Hin.
    by apply bool_decide_eq_true in Hin.
Qed.

(** The lexers named in the path, joined by [+], are the ones the form
    preselects, in that order, the blank names left out; when no name
    is left the form preselects the default lexer; and when one of the
    preselected lexers is unknown the answer is [HTTPError(404)]. *)
Theorem Create_get_of_joined_names (names : list string) :
  Forall (λ name, "+"%char ∉ list_ascii_of_string name) names →
  Create_get (String.concat "+" names) =
    let named := filter (λ name, Py.strip name ≠ "") names in
    let selected :=
      match named with
      | [] => [default_selected_lexer configuration]
      | _ :: _ => named
      end in
    if decide (Forall (λ lexer_, lexer_ ∈ list_languages) selected) then
      inr {| form_expiries := expiries configuration;
             form_lexers := selected;
             form_lexers_available := list_languages;
             form_pagetitle := "Create new paste" |}
    else inl (HTTPError 404).
Proof.
  intros Hnames. unfold Website.Create_get.
  assert (List.filter (λ lexer, Py.truthy (Py.strip lexer))
            (Py.split "+" (String.concat "+" names))
          = filter (λ name, Py.strip name ≠ "") names) as ->.
  { destruct names as [|name names]; [done|].
    rewrite split_concat by done.
    generalize (name :: names). clear. intros l.
    induction l as [|x l IH]; [done|]. simpl.
    destruct (Py.truthy (Py.strip x)) eqn:Hx.
    - rewrite filter_cons_True by by apply truthy_true. by rewrite IH.
    - rewrite filter_cons_False; [done|]. intros H%truthy_true. congruence. }
  cbv zeta.
  set (named := filter _ names).
  assert ((if negb (Py.nonempty named) then [default_selected_lexer configuration]
           else named)
          = match named with
            | [] => [default_selected_lexer configuration]
            | _ :: _ => named
            end) as -> by by destruct named.
  set (selected := match named with [] => _ | _ => _ end).
  destruct (decide _) as [Hall|Hnot].
  - assert (forallb (λ lexer, bool_decide (lexer ∈ list_languages)) selected = true) as ->;
      [|done].
    apply forallb_forall. intros x Hx. apply bool_decide_eq_true.
    rewrite Forall_forall in Hall. apply Hall. by apply list_elem_of_In.
  - assert (forallb (λ lexer, bool_decide (lexer ∈ list_languages)) selected = false) as ->;
      [|done].
    apply not_true_is_false. intros H. apply Hnot, Forall_forall. intros x Hx.
    rewrite forallb_forall in H. apply list_elem_of_In, H in Hx.
    by apply bool_decide_eq_true in Hx.
Qed.

(** The redirect of [Create.post] for a blank code leads to the form
    with the lexer of the request preselected: for a known lexer that
    is not blank and has no [+] in its name, [Create.get] on the part
    of that path after [/+] preselects exactly that lexer. *)
Theorem Create_blank_redirect_reaches_form (now : Z) (token slug_create lexer_ raw_ expiry
    : string) (db : Store) :
  lexer_ ∈ list_languages →
  Py.strip raw_ = "" →
  Py.strip lexer_ ≠ "" →
  "+"%char ∉ list_ascii_of_string lexer_ →
  Create_post now token slug_create lexer_ raw_ expiry db
    = (Redirect ("/+" +:+ lexer_) [], db)
  ∧ Create_get lexer_
    = inr {| form_expiries := expiries configuration;
             form_lexers := [lexer_];
             form_lexers_available := list_languages;
             form_pagetitle := "Create new paste" |}.
Proof.
  intros Hknown Hblank Hname Hplus. split.
  - unfold Website.Create_post. rewrite bool_decide_true by done. simpl negb. cbv iota.
    rewrite Hblank. simpl. by rewrite orb_true_r.
  - unfold Website.Create_get. rewrite split_no_sep by done. simpl.
    apply truthy_true in Hname. rewrite Hname. simpl.
    by rewrite bool_decide_true.
Qed.

End LifecycleFacts.

(** ** The further properties on the sample deployment *)

Lemma sample_reachable : Sample.reachable Sample.after_two_files.
Proof. apply (reachable_step _ _ _ _ Sample.two_files_request []), reachable_empty. Qed.

Lemma reachable_store_invariant_witness :
  Sample.reachable Sample.after_two_files
  ∧ NoDup (paste_slugs Sample.after_two_files)
  ∧ NoDup (file_slugs Sample.after_two_files)
  ∧ ∀ p, p ∈ Sample.after_two_files → ∃ f rest, files p = f :: rest ∧ file_slug f = slug p.
Proof.
  split; [apply sample_reachable|].
  apply (reachable_store_invariant
           Sample.configuration Sample.list_languages Sample.highlight Sample.filename_clean
           Sample.after_two_files).
  apply sample_reachable.
Defined.

Lemma paste_slug_addresses_first_file_witness :
  query_paste_slug Sample.after_two_files "n0" = Some Sample.two_files_paste
  ∧ ∃ f rest,
      files Sample.two_files_paste = f :: rest
      ∧ query_file_slug Sample.after_two_files "n0" = Some (f, Sample.two_files_paste)
      ∧ ∀ now, (now ≤ exp_date Sample.two_files_paste)%Z →
          FileRaw_get now "n0" Sample.after_two_files
            = (Write [("Content-Type", "text/plain; charset=utf-8")] (Text (raw f)),
               Sample.after_two_files).
Proof.
  split; [reflexivity|].
  apply (paste_slug_addresses_first_file
           Sample.configuration Sample.list_languages Sample.highlight Sample.filename_clean
           Sample.after_two_files "n0" Sample.two_files_paste).
  - apply sample_reachable.
  - reflexivity.
Defined.

Lemma expired_paste_ends_file_reads_witness :
  (Sample.handle (ShowReq 90000 None "n0") Sample.after_two_files).1 = NotFound
  ∧ Sample.handle (FileRawReq 10 "n0")
      (Sample.handle (ShowReq 90000 None "n0") Sample.after_two_files).2
    = (NotFound, (Sample.handle (ShowReq 90000 None "n0") Sample.after_two_files).2).
Proof.
  apply (expired_paste_ends_file_reads
           Sample.configuration Sample.list_languages Sample.highlight Sample.filename_clean
           Sample.after_two_files 90000 10 None "n0" Sample.two_files_paste).
  - apply sample_reachable.
  - reflexivity.
  - compute_done.
  - apply list_elem_of_here.
  - apply list_elem_of_here.
Defined.

Lemma stored_pastes_never_altered_witness :
  (∀ q, q ∈ (Sample.handle (RemoveReq 20 "secret") [Sample.old_paste; Sample.two_files_paste]).2 →
      q ∈ [Sample.old_paste; Sample.two_files_paste]
      ∨ (creates (RemoveReq 20 "secret") = true
         ∧ (Sample.handle (RemoveReq 20 "secret")
              [Sample.old_paste; Sample.two_files_paste]).2
           = [Sample.old_paste; Sample.two_files_paste] ++ [q]))
  ∧ (List.length
       (Sample.handle (RemoveReq 20 "secret") [Sample.old_paste; Sample.two_files_paste]).2
     ≤ 2)%nat.
Proof.
  destruct (stored_pastes_never_altered
              Sample.configuration Sample.list_languages Sample.highlight
              Sample.filename_clean (RemoveReq 20 "secret")
              [Sample.old_paste; Sample.two_files_paste]) as [Hkept Hlen].
  split; [exact Hkept|]. by apply Hlen.
Defined.

Lemma creation_all_or_nothing_witness :
  (∀ e, (Sample.handle Sample.two_files_request [Sample.old_paste]).1 = Raise e →
      (Sample.handle Sample.two_files_request [Sample.old_paste]).2 = [Sample.old_paste])
  ∧ ((Sample.handle Sample.two_files_request [Sample.old_paste]).2 ≠ [Sample.old_paste] →
     ∃ p, Sample.handle Sample.two_files_request [Sample.old_paste]
            = (Redirect ("/" +:+ slug p)
                 [ {| cookie_name := "removal"; cookie_value := removal p;
                      cookie_path := "/" +:+ slug p |} ], [Sample.old_paste] ++ [p])
          ∧ (slug p ∉ paste_slugs [Sample.old_paste])).
Proof.
  apply (creation_all_or_nothing
           Sample.configuration Sample.list_languages Sample.highlight Sample.filename_clean
           Sample.two_files_request [Sample.old_paste]).
  reflexivity.
Defined.

Lemma CreateAction_redirect_requires_witness :
  Sample.CreateAction_valid Sample.two_files
  ∧ (total_size
       (Sample.CreateAction_drawn
          (Sample.slug_context (bool_decide (arg_long Sample.two_files = None)))
          Sample.two_files)
     ≤ paste_size Sample.configuration)%Z
  ∧ (Sample.slug_context (bool_decide (arg_long Sample.two_files = None)) 0
       ∉ paste_slugs [Sample.old_paste])
  ∧ (∀ s, s ∈ CreateAction_slugs
                (Sample.slug_context (bool_decide (arg_long Sample.two_files = None)))
                (List.length (arg_lexers Sample.two_files)) →
          s ∉ file_slugs [Sample.old_paste])
  ∧ NoDup (CreateAction_slugs
             (Sample.slug_context (bool_decide (arg_long Sample.two_files = None)))
             (List.length (arg_lexers Sample.two_files))).
Proof.
  apply (CreateAction_redirect_requires
           Sample.configuration Sample.list_languages Sample.highlight
           10 "tok" Sample.slug_context Sample.two_files [Sample.old_paste] "/n0"
           [removal_cookie Sample.two_files_paste]).
  reflexivity.
Defined.

Lemma CreateAction_first_file_in_range_witness :
  (Sample.CreateAction_post 10 "tok" Sample.slug_context Sample.wide_file
     [Sample.old_paste]).1 ≠ Raise IndexError
  ∧ (Sample.CreateAction_post 10 "tok" Sample.slug_context Sample.wide_file
       [Sample.old_paste]).2 = [Sample.old_paste]
  ∧ status_of
      (ValidationError
         "Sum of file sizes exceeds size limit when syntax highlighting applied (0kB > 0kB)")
    = 400%Z.
Proof.
  destruct (CreateAction_first_file_in_range
              Sample.configuration Sample.list_languages Sample.highlight
              10 "tok" Sample.slug_context Sample.wide_file [Sample.old_paste])
    as [Hindex Hvalidation].
  split; [exact Hindex|].
  destruct (Hvalidation
              "Sum of file sizes exceeds size limit when syntax highlighting applied (0kB > 0kB)"
              eq_refl) as (Hstore & Hstatus & _).
  by split.
Defined.

Lemma read_failures_are_not_found_witness :
  HTTPError 404 = HTTPError 404
  ∧ status_of (HTTPError 404) = 404%Z
  ∧ write_error (status_of (HTTPError 404)) (HTTPError 404)
      = {| set_status := None; page_text := "That page does not exist";
           page_status_code := 404 |}.
Proof.
  apply (read_failures_are_not_found
           Sample.configuration Sample.list_languages Sample.highlight Sample.filename_clean
           (FileDownloadReq 100 "old2") [Sample.old_paste]).
  - reflexivity.
  - reflexivity.
Defined.

Lemma live_reads_keep_store_witness :
  (Sample.handle (PasteDownloadReq 50 "old") [Sample.old_paste]).2 = [Sample.old_paste]
  ∧ (∀ e, (Sample.handle (PasteDownloadReq 50 "old") [Sample.old_paste]).1 ≠ Raise e)
  ∧ (Sample.handle (FileHexReq 50 "old2") [Sample.old_paste]).2 = [Sample.old_paste]
  ∧ (∀ e, (Sample.handle (FileHexReq 50 "old2") [Sample.old_paste]).1 ≠ Raise e)
  ∧ Repaste_get "old" [Sample.old_paste]
      = (Render "create.html" "repaste" Sample.old_paste None, [Sample.old_paste]).
Proof.
  destruct (live_reads_keep_store
              Sample.configuration Sample.list_languages Sample.highlight
              Sample.filename_clean [Sample.old_paste] 50 "old") as (Hpaste & _ & Hrepaste).
  destruct (live_reads_keep_store
              Sample.configuration Sample.list_languages Sample.highlight
              Sample.filename_clean [Sample.old_paste] 50 "old2") as (_ & Hfile & _).
  destruct (Hpaste Sample.old_paste None (PasteDownloadReq 50 "old")) as [P1 P2].
  { reflexivity. }
  { compute_done. }
  { do 3 apply list_elem_of_further. apply list_elem_of_here. }
  destruct (Hfile Sample.old_second Sample.old_paste (FileHexReq 50 "old2")) as [F1 F2].
  { reflexivity. }
  { compute_done. }
  { apply list_elem_of_further, list_elem_of_here. }
  split; [exact P1|]. split; [exact P2|]. split; [exact F1|]. split; [exact F2|].
  by apply Hrepaste.
Defined.



Lemma creation_cookie_authorizes_witness :
  ∃ p, [Sample.old_paste] ++ [Sample.two_files_paste] = [Sample.old_paste] ++ [p]
    ∧ "/n0" = "/" +:+ slug p
    ∧ removal_cookie Sample.two_files_paste
        = {| cookie_name := "removal"; cookie_value := removal p; cookie_path := "/n0" |}
    ∧ @nil Cookie = []
    ∧ ∀ now sent, (now ≤ exp_date p)%Z →
        Show_get now sent (slug p) ([Sample.old_paste] ++ [Sample.two_files_paste])
          = (Render "show.html" ("View paste " +:+ slug p) p
               (Some (bool_decide
                        (sent = Some (cookie_value (removal_cookie Sample.two_files_paste))))),
             [Sample.old_paste] ++ [Sample.two_files_paste]).
Proof.
  apply (creation_cookie_authorizes
           Sample.configuration Sample.list_languages Sample.highlight Sample.filename_clean
           Sample.two_files_request [Sample.old_paste]
           ([Sample.old_paste] ++ [Sample.two_files_paste]) "/n0"
           (removal_cookie Sample.two_files_paste) []).
  - reflexivity.
  - reflexivity.
Defined.

Lemma creation_then_Remove_restores_witness :
  (Remove_get 20 "tok" ([Sample.old_paste] ++ [Sample.two_files_paste])).2
    = [Sample.old_paste]
  ∧ ∃ p, [Sample.old_paste] ++ [Sample.two_files_paste] = [Sample.old_paste] ++ [p]
      ∧ ((20 ≤ exp_date p)%Z →
         (Remove_get 20 "tok" ([Sample.old_paste] ++ [Sample.two_files_paste])).1
           = Redirect "/" [])
      ∧ ((exp_date p < 20)%Z →
         (Remove_get 20 "tok" ([Sample.old_paste] ++ [Sample.two_files_paste])).1
           = NotFound).
Proof.
  apply (creation_then_Remove_restores
           Sample.configuration Sample.list_languages Sample.highlight Sample.filename_clean
           Sample.two_files_request [Sample.old_paste]
           ([Sample.old_paste] ++ [Sample.two_files_paste]) "/n0"
           (removal_cookie Sample.two_files_paste) [] 20).
  - reflexivity.
  - reflexivity.
  - intros q ->%list_elem_of_singleton. compute_done.
Defined.

Lemma Remove_twice_is_not_found_witness :
  Remove_get 30 "secret" (Remove_get 20 "secret" [Sample.old_paste; Sample.two_files_paste]).2
    = (NotFound, (Remove_get 20 "secret" [Sample.old_paste; Sample.two_files_paste]).2)
  ∧ (Remove_get 20 "secret" [Sample.old_paste; Sample.two_files_paste]).1 = Redirect "/" [].
Proof.
  split; [|reflexivity].
  apply (Remove_twice_is_not_found 20 30 "secret" [Sample.old_paste; Sample.two_files_paste]).
  intros p q Hp Hq Hrp Hrq.
  apply elem_of_cons in Hp as [->|Hp]; apply elem_of_cons in Hq as [->|Hq]; try done.
  - apply list_elem_of_singleton in Hq as ->. done.
  - apply list_elem_of_singleton in Hp as ->. done.
  - apply list_elem_of_singleton in Hp as ->. done.
Defined.

Lemma FileHex_body_shape_witness :
  ∃ body,
    FileHex_get 50 "old2" [Sample.old_paste]
      = (Write [("Content-Type", "text/plain; charset=utf-8")] (Text body),
         [Sample.old_paste])
    ∧ String.length body = (2 * List.length (Py.encode (raw Sample.old_second)))%nat
    ∧ (2 * String.length (raw Sample.old_second) ≤ String.length body)%nat
    ∧ Forall (λ h, h ∈ list_ascii_of_string "0123456789abcdef") (list_ascii_of_string body).
Proof.
  apply (FileHex_body_shape [Sample.old_paste] 50 "old2" Sample.old_second Sample.old_paste).
  - reflexivity.
  - compute_done.
Defined.

Lemma FileHex_determines_FileRaw_witness :
  "old" ≠ "twin"
  ∧ (FileHex_get 50 "old" [Sample.old_paste; Sample.twin_paste]).1
    = (FileHex_get 50 "twin" [Sample.old_paste; Sample.twin_paste]).1
  ∧ (FileHex_get 50 "old" [Sample.old_paste; Sample.twin_paste]).1
    = Write [("Content-Type", "text/plain; charset=utf-8")] (Text "78")
  ∧ (FileRaw_get 50 "old" [Sample.old_paste; Sample.twin_paste]).1
    = (FileRaw_get 50 "twin" [Sample.old_paste; Sample.twin_paste]).1.
Proof.
  split; [done|]. split; [reflexivity|]. split; [reflexivity|].
  apply (FileHex_determines_FileRaw [Sample.old_paste; Sample.twin_paste] 50 "old" "twin").
  reflexivity.
Defined.

Lemma Create_get_of_joined_names_witness :
  Sample.Create_get "python+ +text+"
    = inr {| form_expiries := expiries Sample.configuration;
             form_lexers := ["python"; "text"];
             form_lexers_available := Sample.list_languages;
             form_pagetitle := "Create new paste" |}
  ∧ Sample.Create_get "" 
    = inr {| form_expiries := expiries Sample.configuration;
             form_lexers := ["text"];
             form_lexers_available := Sample.list_languages;
             form_pagetitle := "Create new paste" |}
  ∧ Sample.Create_get "python+klingon" = inl (HTTPError 404).
Proof.
  split; [|split].
  - apply (Create_get_of_joined_names Sample.configuration Sample.list_languages
             ["python"; " "; "text"; ""]).
    repeat constructor; compute_done.
  - apply (Create_get_of_joined_names Sample.configuration Sample.list_languages []).
    constructor.
  - apply (Create_get_of_joined_names Sample.configuration Sample.list_languages
             ["python"; "klingon"]).
    repeat constructor; compute_done.
Defined.

Lemma Create_blank_redirect_reaches_form_witness :
  Sample.Create_post 10 "tok" "abcd" "python" "
  " "never" [Sample.old_paste] = (Redirect "/+python" [], [Sample.old_paste])
  ∧ Sample.Create_get "python"
    = inr {| form_expiries := expiries Sample.configuration;
             form_lexers := ["python"];
             form_lexers_available := Sample.list_languages;
             form_pagetitle := "Create new paste" |}.
Proof.
  apply (Create_blank_redirect_reaches_form
           Sample.configuration Sample.list_languages Sample.highlight
           10 "tok" "abcd" "python" _ "never" [Sample.old_paste]); compute_done.
Defined.

